(** * Parkinsons-ML-Server: the request-to-prediction pipeline

    A shallow embedding of the two FastAPI servers of the repository,

    - [src/app.py]            (models loaded eagerly at import time), and
    - [src/ml-server/app.py]  (models loaded lazily on the first request),

    followed by the properties of the pipeline that the design document
    states.  Calls into NumPy, OpenCV, Keras, scikit-learn and joblib are
    library calls: what the source relies on is taken as a parameter
    (class [External], the model handles, the artifacts on disk), and the
    code of the repository itself is written out. *)

From Stdlib Require Import ZArith List String Ascii Strings.Byte Bool Lia.
From Stdlib Require Import DecimalString SpecFloat.
From stdpp Require Import base option list gmap strings.

#[local] Set Warnings "-register-all".

Local Open Scope Z_scope.
Local Open Scope string_scope.
Local Open Scope list_scope.

(** ** Python floats

    A Python [float] (and a NumPy [float64]) is an IEEE-754 binary64 value:
    a zero, an infinity, NaN or [(-1)^s * m * 2^e].  The elements of a
    float32 array are values of the same kind in binary32 form; the servers
    compare Python floats only. *)

Definition float : Type := spec_float.

Definition f_zero : float := S754_zero false.
Definition f_half : float := S754_finite false 4503599627370496 (-53).
Definition f_one : float := S754_finite false 4503599627370496 (-52).

Definition isnan (x : float) : bool :=
  match x with S754_nan => true | _ => false end.

(** [a > b], [a < b] and [a <= b] of Python; every comparison with NaN is
    [False]. *)
Definition py_gt (a b : float) : bool := SFltb b a.
Definition py_lt (a b : float) : bool := SFltb a b.
Definition py_le (a b : float) : bool := SFleb a b.

(** [0 <= x <= 1] *)
Definition in_unit_interval (x : float) : Prop :=
  py_le f_zero x = true /\ py_le x f_one = true.

(** [np.clip(x, lo, hi)] on floats is [minimum(maximum(x, lo), hi)], and the
    two propagate a NaN in their first argument. *)
Definition np_maximum (a b : float) : float :=
  if isnan a then a else if py_gt a b then a else b.

Definition np_minimum (a b : float) : float :=
  if isnan a then a else if py_lt a b then a else b.

Definition np_clip (x lo hi : float) : float :=
  np_minimum (np_maximum x lo) hi.

(** [max(xs)] of Python over a sequence: the first item is kept until a
    strictly greater one is met; [None] stands for the [ValueError] on an
    empty sequence. *)
Definition py_max (xs : list float) : option float :=
  match xs with
  | [] => None
  | x :: rest => Some (fold_left (fun m y => if py_gt y m then y else m) rest x)
  end.

(** ** Decimal printing: [str(n)] and [{n}] in an f-string *)

Definition str_Z (z : Z) : string := NilZero.string_of_int (Z.to_int z).
Definition str_nat (n : nat) : string := str_Z (Z.of_nat n).

(** ** Exceptions *)

Inductive exn : Type :=
  | HTTPException (status_code : nat) (detail : string)
  | ValueError (msg : string)
  | FileNotFoundError (msg : string)
  | KeyError (msg : string)
  | TypeError (msg : string)
  | IndexError (msg : string)
  | Exception (msg : string).

(** [str(e)], as the f-strings of the handlers print it. *)
Definition str_exn (e : exn) : string :=
  match e with
  | HTTPException c d => str_nat c +:+ ": " +:+ d
  | ValueError m | FileNotFoundError m | KeyError m
  | TypeError m | IndexError m | Exception m => m
  end.

Definition is_HTTPException (e : exn) : bool :=
  match e with HTTPException _ _ => true | _ => false end.

Definition is_ValueError (e : exn) : bool :=
  match e with ValueError _ => true | _ => false end.

(** Every exception of the servers is an [Exception]. *)
Definition is_Exception (e : exn) : bool := true.

Inductive result (A : Type) : Type :=
  | Ok (a : A)
  | Raise (e : exn).
Arguments Ok {A} a.
Arguments Raise {A} e.

(** Sequencing of statements that may raise: [x ← r; k]. *)
Global Instance result_ret : MRet result := fun A a => Ok a.
Global Instance result_bind : MBind result := fun A B k r =>
  match r with
  | Ok a => k a
  | Raise e => Raise e
  end.

(** [try: body except <class> as e: handler e] *)
Definition try_except {A} (body : result A) (catches : exn -> bool)
    (handler : exn -> result A) : result A :=
  match body with
  | Ok a => Ok a
  | Raise e => if catches e then handler e else Raise e
  end.

(** ** NumPy arrays

    An array is its dtype, its shape and its elements in C (row-major)
    index order. *)

Inductive np_dtype : Type :=
  | uint8
  | float32
  | other_dtype (name : string).

Record ndarray (A : Type) : Type := mk_ndarray {
  dtype : np_dtype;
  shape : list nat;
  data : list A
}.
Arguments mk_ndarray {A} dtype shape data.
Arguments dtype {A} _.
Arguments shape {A} _.
Arguments data {A} _.

Definition ndim {A} (a : ndarray A) : nat := length (shape a).
Definition size {A} (a : ndarray A) : nat := fold_right Nat.mul 1%nat (shape a).

(** [a.reshape(1, -1)]: one row holding every element, in the same order. *)
Definition reshape_1_m1 {A} (a : ndarray A) : ndarray A :=
  mk_ndarray (dtype a) [1%nat; size a] (data a).

(** [np.expand_dims(a, axis=0)] *)
Definition expand_dims_0 {A} (a : ndarray A) : ndarray A :=
  mk_ndarray (dtype a) (1%nat :: shape a) (data a).

(** [uint8 -> float32]: every value 0..255 is a binary32 number. *)
Definition u8_to_f32 (v : Z) : float := binary_normalize 24 128 v 0 false.

Definition astype_f32_u8 (a : ndarray Z) : ndarray float :=
  mk_ndarray float32 (shape a) (map u8_to_f32 (data a)).

(** ** OpenCV *)

Inductive interpolation : Type :=
  | INTER_NEAREST
  | INTER_LINEAR
  | INTER_CUBIC
  | INTER_AREA.

(** [cv2.cvtColor(img, cv2.COLOR_BGR2RGB)]: the first and third channel of
    every pixel change places. *)
Fixpoint bgr2rgb (l : list Z) : list Z :=
  match l with
  | b :: g :: r :: rest => r :: g :: b :: bgr2rgb rest
  | _ => l
  end.

Definition cvtColor_BGR2RGB (img : ndarray Z) : ndarray Z :=
  mk_ndarray (dtype img) (shape img) (bgr2rgb (data img)).

(** ** JSON values, as [await request.json()] returns them *)

Inductive json : Type :=
  | JNull
  | JBool (b : bool)
  | JInt (z : Z)
  | JFloat (f : float)
  | JStr (s : string)
  | JList (l : list json)
  | JDict (items : list (string * json)).

(** ** What the servers take from their libraries *)

Class External : Type := {
  (** [cv2.imdecode(np.frombuffer(b, np.uint8), cv2.IMREAD_COLOR)];
      [None] when the bytes are no image. *)
  cv2_imdecode : list byte -> option (ndarray Z);
  (** [cv2.resize(img, dsize, interpolation=...)], [dsize = (width, height)] *)
  cv2_resize : ndarray Z -> nat * nat -> interpolation -> ndarray Z;
  (** the element type of the arrays [np.load] returns *)
  npscalar : Type;
  (** [np.load(io.BytesIO(b), allow_pickle=False)] *)
  np_load : list byte -> result (ndarray npscalar);
  (** the cast of one element by [.astype(np.float32)] *)
  astype_float32 : npscalar -> result float;
  (** [np.array(v, dtype=np.float32)] for a JSON value [v] that is not a
      list: the 0-dimensional conversion of one item *)
  float32_of_item : json -> result float;
}.

(** ** Configuration ([CONFIG / PATHS]) *)

Definition IMG_SIZE : nat * nat := (128%nat, 128%nat).

Definition VOICE_LABELS : gmap Z string :=
  <[0 := "healthy"]> (<[1 := "parkinsons"]> ∅).

(** ** MRI preprocessing (the same function in both files) *)

Definition preprocess_mri_from_bytes `{External} (img_bytes : list byte)
    : result (ndarray float) :=
  match cv2_imdecode img_bytes with
  | None => Raise (ValueError "Invalid image")
  | Some img_bgr =>
      let img_rgb := cvtColor_BGR2RGB img_bgr in
      let img_resized := cv2_resize img_rgb IMG_SIZE INTER_LINEAR in
      let img_f := astype_f32_u8 img_resized in
      let img_batch := expand_dims_0 img_f in
      Ok img_batch
  end.

(** ** Voice preprocessing (the same functions in both files) *)

Definition preprocess_voice_from_npy_bytes `{External} (npy_bytes : list byte)
    : result (ndarray float) :=
  match np_load npy_bytes with
  | Raise e => Raise (ValueError ("Could not load .npy: " +:+ str_exn e))
  | Ok arr =>
      xs ← mapM astype_float32 (data arr);
      let arr := mk_ndarray float32 (shape arr) xs in
      if (ndim arr =? 1)%nat then Ok (reshape_1_m1 arr)
      else if (ndim arr =? 2)%nat && negb (hd 0%nat (shape arr) =? 1)%nat
           then Ok (reshape_1_m1 arr)
      else Ok arr
  end.

(** [np.array(features, dtype=np.float32)]: nested lists give one axis per
    nesting level and must be rectangular. *)
Definition stack (subs : list (ndarray float)) : result (ndarray float) :=
  match subs with
  | [] => Ok (mk_ndarray float32 [0%nat] [])
  | a :: _ =>
      if forallb (fun b => bool_decide (shape b = shape a)) subs
      then Ok (mk_ndarray float32 (length subs :: shape a)
                          (concat (map data subs)))
      else Raise (ValueError "setting an array element with a sequence.")
  end.

Fixpoint np_array_f32 `{External} (v : json) : result (ndarray float) :=
  match v with
  | JList l =>
      subs ← (fix items (l : list json) : result (list (ndarray float)) :=
                match l with
                | [] => Ok []
                | x :: l' =>
                    a ← np_array_f32 x; rest ← items l'; Ok (a :: rest)
                end) l;
      stack subs
  | _ => x ← float32_of_item v; Ok (mk_ndarray float32 [] [x])
  end.

Definition preprocess_voice_from_list `{External} (features : json)
    : result (ndarray float) :=
  a ← np_array_f32 features; Ok (reshape_1_m1 a).

(** ** Model handles

    A loaded model is known to the servers only through the calls they make
    on it. *)

Record MriModel : Type := {
  (** [float(model.predict(x).ravel()[0])] *)
  keras_predict : ndarray float -> result float
}.

Record VoiceModel : Type := {
  (** [int(model.predict(arr)[0])] *)
  sk_predict : ndarray float -> result Z;
  (** [model.predict_proba(arr)[0]]; [None] when the object has no such
      attribute *)
  sk_predict_proba : option (ndarray float -> result (list float));
  (** [int(cls)] for every [cls] of [model.classes_] *)
  classes_ : list Z
}.

(** [hasattr(voice_model, "predict_proba")] *)
Definition hasattr_predict_proba (m : VoiceModel) : bool :=
  match sk_predict_proba m with Some _ => true | None => false end.

(** ** Requests and responses *)

Record UploadFile : Type := {
  filename : option string;
  content_type : option string;
  contents : list byte          (* what [await file.read()] returns *)
}.

Record response : Type := {
  prediction : string;
  confidence : float;
  probability : option (gmap string float);
  inference_time_seconds : option float
}.

(** [file.content_type] when it is truthy: neither [None] nor [""]. *)
Definition truthy_content_type (file : UploadFile) : option string :=
  match content_type file with
  | None | Some "" => None
  | Some ct => Some ct
  end.

(** [s.split("/")[0]] *)
Fixpoint split_slash_0 (s : string) : string :=
  match s with
  | EmptyString => EmptyString
  | String c s' => if Ascii.eqb c "/" then EmptyString
                   else String c (split_slash_0 s')
  end.

(** [{s}] in an f-string, for an optional string *)
Definition fmt_opt (s : option string) : string :=
  match s with Some s => s | None => "None" end.

(** [p in s] for two strings *)
Fixpoint is_substring (p s : string) : bool :=
  if String.prefix p s then true
  else match s with
       | EmptyString => false
       | String _ s' => is_substring p s'
       end.

Definition json_eqb_str (k : string) (v : json) : bool :=
  match v with JStr s => String.eqb s k | _ => false end.

Fixpoint dict_get (k : string) (items : list (string * json)) : option json :=
  match items with
  | [] => None
  | (k', v) :: rest => if String.eqb k' k then Some v else dict_get k rest
  end.

(** ["features" in body] *)
Definition features_in (body : json) : result bool :=
  match body with
  | JDict items => Ok (match dict_get "features" items with
                       | Some _ => true | None => false end)
  | JList l => Ok (existsb (json_eqb_str "features") l)
  | JStr s => Ok (is_substring "features" s)
  | _ => Raise (TypeError "argument is not iterable")
  end.

(** [body["features"]] *)
Definition getitem_features (body : json) : result json :=
  match body with
  | JDict items => match dict_get "features" items with
                   | Some v => Ok v
                   | None => Raise (KeyError "'features'")
                   end
  | JList _ => Raise (TypeError "list indices must be integers or slices, not str")
  | JStr _ => Raise (TypeError "string indices must be integers, not 'str'")
  | _ => Raise (TypeError "object is not subscriptable")
  end.

(** [isinstance(body, list)] *)
Definition isinstance_list (body : json) : bool :=
  match body with JList _ => true | _ => false end.

(** [arr.shape[1]] *)
Definition shape_1 {A} (arr : ndarray A) : result nat :=
  match shape arr !! 1%nat with
  | Some n => Ok n
  | None => Raise (IndexError "tuple index out of range")
  end.

(** ** Inference (the same statements in both files) *)

(** [src/app.py] 132-136, [src/ml-server/app.py] 228-232 *)
Definition mri_classify (model : MriModel) (x : ndarray float)
    : result (string * float) :=
  prob ← keras_predict model x;
  let prob := np_clip prob f_zero f_one in
  let label := if py_gt prob f_half then "parkinsons" else "normal" in
  Ok (label, prob).

(** The loop [for cls, p in zip(classes_, probs): prob_dict[VOICE_LABELS[int(cls)]] = float(p)] *)
Fixpoint fill_prob_dict (pairs : list (Z * float)) (prob_dict : gmap string float)
    : result (gmap string float) :=
  match pairs with
  | [] => Ok prob_dict
  | (cls, p) :: rest =>
      match VOICE_LABELS !! cls with
      | None => Raise (KeyError (str_Z cls))
      | Some l => fill_prob_dict rest (<[l := p]> prob_dict)
      end
  end.

(** [src/app.py] 166-178, [src/ml-server/app.py] 301-313 *)
Definition voice_classify (model : VoiceModel) (_voice_has_proba : bool)
    (arr : ndarray float) : result (string * float * gmap string float) :=
  pred ← sk_predict model arr;
  let label := default (str_Z pred) (VOICE_LABELS !! pred) in
  if _voice_has_proba then
    match sk_predict_proba model with
    | None => Raise (Exception "object has no attribute 'predict_proba'")
    | Some predict_proba =>
        probs ← predict_proba arr;
        prob_dict ← fill_prob_dict (combine (classes_ model) probs) ∅;
        match py_max probs with
        | None => Raise (ValueError "max() arg is an empty sequence")
        | Some confidence => Ok (label, confidence, prob_dict)
        end
    end
  else Ok (label, f_one, <[label := f_one]> ∅).

(** * [src/app.py]: both models are loaded when the module is imported *)

Module Eager.
Section Server.
Context `{External}.
Variable mri_model : MriModel.
Variable voice_model : VoiceModel.

Definition _voice_has_proba : bool := hasattr_predict_proba voice_model.

Definition predict_mri (file : option UploadFile) : result response :=
  match file with
  | None => Raise (HTTPException 400 "No file uploaded")
  | Some file =>
      match truthy_content_type file with
      | None => Raise (HTTPException 400 "No file uploaded")
      | Some ct =>
      if negb (String.eqb (split_slash_0 ct) "image") then
        Raise (HTTPException 400 "Upload an image file")
      else
        try_except
          (let bytes_data := contents file in
           x ← preprocess_mri_from_bytes bytes_data;
           '(label, prob) ← mri_classify mri_model x;
           Ok {| prediction := label; confidence := prob;
                 probability := None; inference_time_seconds := None |})
          is_Exception
          (fun e => Raise (HTTPException 500 ("MRI prediction failed: " +:+ str_exn e)))
      end
  end.

Definition voice_input (request_json : result json) (file : option UploadFile)
    : result (ndarray float) :=
  match file with
  | Some file => preprocess_voice_from_npy_bytes (contents file)
  | None =>
      body ← request_json;
      has ← features_in body;
      if has : bool then
        features ← getitem_features body; preprocess_voice_from_list features
      else if isinstance_list body then preprocess_voice_from_list body
      else Raise (HTTPException 400 "Invalid voice input")
  end.

(** [GET /] *)
Definition root : json :=
  JDict [("status", JStr "ok"); ("mri_model", JBool true); ("voice_model", JBool true)].

(** [except HTTPException: raise] lets an [HTTPException] through; every
    other exception is caught by [except Exception]. *)
Definition predict_voice (request_json : result json) (file : option UploadFile)
    : result response :=
  try_except
    (arr ← voice_input request_json file;
     n ← shape_1 arr;
     if negb (n =? 22)%nat then
       Raise (HTTPException 400 ("Expected 22 features, got " +:+ str_nat n))
     else
       '(label, confidence, prob_dict) ← voice_classify voice_model _voice_has_proba arr;
       Ok {| prediction := label; confidence := confidence;
             probability := Some prob_dict; inference_time_seconds := None |})
    (fun e => negb (is_HTTPException e))
    (fun e => Raise (HTTPException 500 ("Voice prediction failed: " +:+ str_exn e))).
End Server.
End Eager.

(** * [src/ml-server/app.py]: models are loaded by the first request *)

Module Lazy.

(** What is on disk when a load is attempted. *)
Record Artifacts : Type := {
  MRI_MODEL_PATH : string;
  VOICE_MODEL_PATH : string;
  (** [os.path.exists(MRI_MODEL_PATH)], [os.path.exists(VOICE_MODEL_PATH)] *)
  mri_path_exists : bool;
  voice_path_exists : bool;
  (** [tf.keras.models.load_model(MRI_MODEL_PATH)] *)
  tf_load_model : result MriModel;
  (** [joblib.load(VOICE_MODEL_PATH)] *)
  joblib_load : result VoiceModel
}.

(** The calls on [logger], in the order of the source. *)
Inductive log_record : Type :=
  | info_loading_mri
  | error_mri_not_found
  | info_mri_loaded
  | error_mri_load_failed (e : exn)
  | info_loading_voice
  | error_voice_not_found
  | info_voice_loaded
  | error_voice_load_failed (e : exn)
  | info_processing_mri (filename content_type : option string)
  | info_mri_complete (label : string) (prob : float)
  | error_mri_preprocessing (ve : exn)
  | error_mri_failed (e : exn)
  | info_processing_voice
  | info_reading_voice_file (filename : option string)
  | info_voice_complete (label : string) (confidence : float)
  | error_voice_failed (e : exn).

(** The module-level variables and the log written so far (latest record
    first). *)
Record State : Type := {
  mri_model : option MriModel;
  voice_model : option VoiceModel;
  _voice_has_proba : bool;
  log : list log_record
}.

Definition initial : State :=
  {| mri_model := None; voice_model := None; _voice_has_proba := false;
     log := [] |}.

Definition logger (r : log_record) (st : State) : State :=
  {| mri_model := mri_model st; voice_model := voice_model st;
     _voice_has_proba := _voice_has_proba st; log := r :: log st |}.

Definition set_mri_model (m : MriModel) (st : State) : State :=
  {| mri_model := Some m; voice_model := voice_model st;
     _voice_has_proba := _voice_has_proba st; log := log st |}.

Definition set_voice_model (m : VoiceModel) (st : State) : State :=
  {| mri_model := mri_model st; voice_model := Some m;
     _voice_has_proba := hasattr_predict_proba m; log := log st |}.

Definition load_mri_model (disk : Artifacts) (st : State)
    : result MriModel * State :=
  match mri_model st with
  | Some m => (Ok m, st)
  | None =>
      let st := logger info_loading_mri st in
      if negb (mri_path_exists disk) then
        (Raise (FileNotFoundError ("MRI model not found at " +:+ MRI_MODEL_PATH disk)),
         logger error_mri_not_found st)
      else
        match tf_load_model disk with
        | Ok m => (Ok m, logger info_mri_loaded (set_mri_model m st))
        | Raise e => (Raise e, logger (error_mri_load_failed e) st)
        end
  end.

Definition load_voice_model (disk : Artifacts) (st : State)
    : result VoiceModel * State :=
  match voice_model st with
  | Some m => (Ok m, st)
  | None =>
      let st := logger info_loading_voice st in
      if negb (voice_path_exists disk) then
        (Raise (FileNotFoundError ("Voice model not found at " +:+ VOICE_MODEL_PATH disk)),
         logger error_voice_not_found st)
      else
        match joblib_load disk with
        | Ok m => (Ok m, logger info_voice_loaded (set_voice_model m st))
        | Raise e => (Raise e, logger (error_voice_load_failed e) st)
        end
  end.

(** [GET /] *)
Definition root (st : State) : json * State :=
  (JDict [("status", JStr "ok");
          ("service", JStr "Parkinsons ML Server");
          ("version", JStr "2.0");
          ("endpoints", JDict [("mri", JStr "/predict/mri");
                               ("voice", JStr "/predict/voice");
                               ("health", JStr "/health")])], st).

(** [GET /health]: [os.path.exists] does not raise, so the [except] branch
    is never taken. *)
Definition health_check (disk : Artifacts) (st : State) : json * State :=
  let mri_loaded := mri_path_exists disk in
  let voice_loaded := voice_path_exists disk in
  (JDict [("status", JStr (if mri_loaded && voice_loaded then "healthy" else "degraded"));
          ("models", JDict [("mri", JStr (if mri_loaded then "available" else "missing"));
                            ("voice", JStr (if voice_loaded then "available" else "missing"))]);
          ("model_paths", JDict [("mri", JStr (MRI_MODEL_PATH disk));
                                 ("voice", JStr (VOICE_MODEL_PATH disk))])], st).

(** The records the load functions write. *)
Definition is_load_record (r : log_record) : bool :=
  match r with
  | info_loading_mri | error_mri_not_found | info_mri_loaded | error_mri_load_failed _
  | info_loading_voice | error_voice_not_found | info_voice_loaded
  | error_voice_load_failed _ => true
  | _ => false
  end.

(** How many loads succeeded. *)
Definition mri_loads (st : State) : nat :=
  length (List.filter (fun r => match r with info_mri_loaded => true | _ => false end)
                      (log st)).

Definition voice_loads (st : State) : nat :=
  length (List.filter (fun r => match r with info_voice_loaded => true | _ => false end)
                      (log st)).

(** How many loads were started: every load logs its start first. *)
Definition mri_load_attempts (st : State) : nat :=
  length (List.filter (fun r => match r with info_loading_mri => true | _ => false end)
                 (log st)).

Definition voice_load_attempts (st : State) : nat :=
  length (List.filter (fun r => match r with info_loading_voice => true | _ => false end)
                 (log st)).

(** The flag is the one of the cached voice model. *)
Definition consistent (st : State) : Prop :=
  forall m, voice_model st = Some m -> _voice_has_proba st = hasattr_predict_proba m.

Section Server.
Context `{External}.
Variable disk : Artifacts.
(** [round(time.time() - start_time, 3)] of the request at hand *)
Variable inference_time : float.

Definition predict_mri (file : option UploadFile) (st : State)
    : result response * State :=
  match load_mri_model disk st with
  | (Raise e, st) => (Raise e, st)
  | (Ok model, st) =>
      match file with
      | None =>
          (Raise (HTTPException 400 "No file uploaded. Use form-data key 'file'"), st)
      | Some file =>
          if match truthy_content_type file with
             | None => true
             | Some ct => negb (String.eqb (split_slash_0 ct) "image")
             end
          then
            (Raise (HTTPException 400
                      ("Invalid file type: " +:+ fmt_opt (content_type file) +:+
                       ". Expected image file (PNG, JPEG, etc.)")), st)
          else
            let st :=
              logger (info_processing_mri (filename file) (content_type file)) st in
            match (let bytes_data := contents file in
                   x ← preprocess_mri_from_bytes bytes_data;
                   mri_classify model x) with
            | Ok (label, prob) =>
                (Ok {| prediction := label; confidence := prob;
                       probability := None;
                       inference_time_seconds := Some inference_time |},
                 logger (info_mri_complete label prob) st)
            | Raise e =>
                if is_ValueError e then
                  (Raise (HTTPException 400 ("Image processing failed: " +:+ str_exn e)),
                   logger (error_mri_preprocessing e) st)
                else
                  (Raise (HTTPException 500 ("MRI prediction failed: " +:+ str_exn e)),
                   logger (error_mri_failed e) st)
            end
      end
  end.

Definition voice_input (request_json : result json) (file : option UploadFile)
    (st : State) : result (ndarray float) * State :=
  match file with
  | Some file =>
      let st := logger (info_reading_voice_file (filename file)) st in
      (preprocess_voice_from_npy_bytes (contents file), st)
  | None =>
      match request_json with
      | Raise _ =>
          (Raise (HTTPException 400
             "No input provided. Send either JSON body {'features': [...]} or upload .npy file"),
           st)
      | Ok body =>
          (has ← features_in body;
           if has : bool then
             features ← getitem_features body; preprocess_voice_from_list features
           else if isinstance_list body then preprocess_voice_from_list body
           else Raise (HTTPException 400
             "Invalid JSON format. Expected {'features': [22 values]} or direct array"),
           st)
      end
  end.

Definition predict_voice (request_json : result json) (file : option UploadFile)
    (st : State) : result response * State :=
  match load_voice_model disk st with
  | (Raise e, st) => (Raise e, st)
  | (Ok model, st) =>
      let st := logger info_processing_voice st in
      let '(arr, st) := voice_input request_json file st in
      match (arr ← arr;
             n ← shape_1 arr;
             if negb (n =? 22)%nat then
               Raise (HTTPException 400
                 ("Expected 22 features, got " +:+ str_nat n +:+
                  ". Please provide all required voice measurements."))
             else voice_classify model (_voice_has_proba st) arr) with
      | Ok (label, confidence, prob_dict) =>
          (Ok {| prediction := label; confidence := confidence;
                 probability := Some prob_dict;
                 inference_time_seconds := Some inference_time |},
           logger (info_voice_complete label confidence) st)
      | Raise e =>
          if is_HTTPException e then (Raise e, st)
          else
            (Raise (HTTPException 500 ("Voice prediction failed: " +:+ str_exn e)),
             logger (error_voice_failed e) st)
      end
  end.
End Server.
End Lazy.

(** ** What the MRI route relies on from OpenCV *)

(** The integer a float stands for, when it stands for one. *)
Definition float_to_Z (x : float) : option Z :=
  match x with
  | S754_zero _ => Some 0
  | S754_finite s m e =>
      if (0 <=? e)%Z then Some (cond_Zopp s (Z.pos m * 2 ^ e))
      else if (Z.pos m mod 2 ^ (- e) =? 0)%Z
           then Some (cond_Zopp s (Z.pos m / 2 ^ (- e)))
           else None
  | _ => None
  end.

Definition is_uint8 (v : Z) : Prop := 0 <= v < 256.

(** An 8-bit image of [h] rows and [w] columns with three channels. *)
Definition is_image (h w : nat) (a : ndarray Z) : Prop :=
  dtype a = uint8 /\ shape a = [h; w; 3%nat] /\
  length (data a) = (h * w * 3)%nat /\ Forall is_uint8 (data a).

(** [cv2.imdecode] with [IMREAD_COLOR] returns an 8-bit image of three
    channels, and [cv2.resize] an 8-bit image of the size asked for. *)
Definition cv2_contract (E : External) : Prop :=
  (forall bs img, cv2_imdecode bs = Some img -> exists h w, is_image h w img) /\
  (forall img h w h' w' i,
     is_image h w img -> is_image h' w' (cv2_resize img (w', h') i)).

(** ** Uploads the MRI route accepts *)

(** A file is present and the primary type of its content type is "image". *)
Definition is_image_upload (file : option UploadFile) : bool :=
  match file with
  | Some f => match truthy_content_type f with
              | Some ct => String.eqb (split_slash_0 ct) "image"
              | None => false
              end
  | None => false
  end.

(** ** Items of a flat feature list *)

(** A JSON value that is no list and that [np.array(..., dtype=np.float32)]
    converts. *)
Definition is_feature `{External} (v : json) : Prop :=
  isinstance_list v = false /\ exists x, float32_of_item v = Ok x.

(** ** What a voice response says *)

(** [conf] is a greatest element of [probs]: it is one of them and none is
    greater; where no NaN is among them, all are below or equal to it. *)
Definition is_max_of (probs : list float) (conf : float) : Prop :=
  In conf probs /\
  (forall p, In p probs -> py_gt p conf = false) /\
  (Forall (fun p => isnan p = false) probs ->
   forall p, In p probs -> py_le p conf = true).

(** The keys of [pd] are the labels of the classes, and the label of the
    class at position [i] carries the probability at position [i]. *)
Definition distribution_over (classes : list Z) (probs : list float)
    (pd : gmap string float) : Prop :=
  (forall l, is_Some (pd !! l) <->
             exists c, In c classes /\ VOICE_LABELS !! c = Some l) /\
  (forall (i : nat) c p, classes !! i = Some c -> probs !! i = Some p ->
     exists l, VOICE_LABELS !! c = Some l /\ pd !! l = Some p).

(** What scikit-learn promises of a classifier: its classes are distinct
    and [predict_proba] gives one probability per class. *)
Definition sklearn_contract (m : VoiceModel) : Prop :=
  NoDup (classes_ m) /\
  forall predict_proba arr probs,
    sk_predict_proba m = Some predict_proba -> predict_proba arr = Ok probs ->
    length probs = length (classes_ m).

Definition voice_response_spec (m : VoiceModel) (resp : response) : Prop :=
  exists pd, probability resp = Some pd /\
  match sk_predict_proba m with
  | Some predict_proba =>
      exists arr probs, predict_proba arr = Ok probs /\
        distribution_over (classes_ m) probs pd /\
        is_max_of probs (confidence resp)
  | None =>
      pd = <[prediction resp := f_one]> ∅ /\ confidence resp = f_one
  end.

(** The label that goes with a predicted class id. *)
Definition label_spec (pred : Z) (label : string) : Prop :=
  (pred = 0 -> label = "healthy") /\
  (pred = 1 -> label = "parkinsons") /\
  (pred <> 0 -> pred <> 1 ->
   label = str_Z pred /\ label <> "healthy" /\ label <> "parkinsons").

(** ** Requests to the lazy-loading server, one after the other *)

Inductive request : Type :=
  | GET_root
  | GET_health
  | POST_predict_mri (file : option UploadFile)
  | POST_predict_voice (request_json : result json) (file : option UploadFile).

(** The state a request leaves behind; [disk] is what is on disk and [t] the
    time measured while it is served. *)
Definition serve `{External} (disk : Lazy.Artifacts) (t : float) (rq : request)
    (st : Lazy.State) : Lazy.State :=
  match rq with
  | GET_root => snd (Lazy.root st)
  | GET_health => snd (Lazy.health_check disk st)
  | POST_predict_mri file => snd (Lazy.predict_mri disk t file st)
  | POST_predict_voice request_json file =>
      snd (Lazy.predict_voice disk t request_json file st)
  end.

Fixpoint run `{External} (rqs : list (Lazy.Artifacts * float * request))
    (st : Lazy.State) : Lazy.State :=
  match rqs with
  | [] => st
  | (disk, t, rq) :: rest => run rest (serve disk t rq st)
  end.

(** The status code of a failed request. *)
Definition http_status {A} (r : result A) : option nat :=
  match r with
  | Raise (HTTPException c _) => Some c
  | _ => None
  end.

(** The same response, with the time the lazy-loading server adds. *)
Definition timed (t : float) (r : response) : response :=
  {| prediction := prediction r; confidence := confidence r;
     probability := probability r; inference_time_seconds := Some t |}.

(** A JSON body that is neither an object, an array nor a string. *)
Definition is_scalar_body (body : json) : bool :=
  match body with
  | JNull | JBool _ | JInt _ | JFloat _ => true
  | _ => false
  end.

(** Shape and elements of an array agree. *)
Definition well_formed {A} (a : ndarray A) : Prop :=
  length (data a) = size a.

(** ** What the registry of the lazy-loading server keeps *)

(** The flag belongs to the cached voice model, and a model is cached
    exactly when one load of it has succeeded. *)
Definition registry_invariant (st : Lazy.State) : Prop :=
  Lazy.consistent st /\
  Lazy.mri_loads st = match Lazy.mri_model st with Some _ => 1%nat | None => 0%nat end /\
  Lazy.voice_loads st = match Lazy.voice_model st with Some _ => 1%nat | None => 0%nat end.

(** ** What an MRI response says *)

(** One of the two labels, "parkinsons" exactly when the confidence is above
    0.5; a confidence in [0,1], or NaN; no probability mapping. *)
Definition mri_response_spec (r : response) : Prop :=
  ((prediction r = "parkinsons" /\ py_gt (confidence r) f_half = true) \/
   (prediction r = "normal" /\ py_gt (confidence r) f_half = false)) /\
  (isnan (confidence r) = true \/ in_unit_interval (confidence r)) /\
  probability r = None.

(** * Sample libraries, models and requests

    One concrete choice for every parameter, on which the servers can be
    run: a toy image codec, a toy array container and constant models. *)

Module Sample.

Definition Z_of_byte (b : byte) : Z := Z.of_N (Byte.to_N b).

(** A stream [50 b g r ...] is an image of one pixel; anything else is not
    an image. *)
Definition imdecode (bs : list byte) : option (ndarray Z) :=
  match bs with
  | x50 :: b :: g :: r :: _ =>
      Some (mk_ndarray uint8 [1%nat; 1%nat; 3%nat] [Z_of_byte b; Z_of_byte g; Z_of_byte r])
  | _ => None
  end.

(** Every pixel of the result is the first pixel of the source. *)
Definition resize (img : ndarray Z) (dsize : nat * nat) (_ : interpolation)
    : ndarray Z :=
  let '(w, h) := dsize in
  mk_ndarray uint8 [h; w; 3%nat]
    (concat (repeat (take 3 (data img ++ [0; 0; 0])) (h * w))).

(** A stream [01 v1 ... vn] is a 1-dimensional array, a stream
    [02 r c v1 ... v(r*c)] a 2-dimensional one. *)
Definition load (bs : list byte) : result (ndarray Z) :=
  match bs with
  | x01 :: vs => Ok (mk_ndarray uint8 [length vs] (map Z_of_byte vs))
  | x02 :: r :: c :: vs =>
      let r := Z.to_nat (Z_of_byte r) in
      let c := Z.to_nat (Z_of_byte c) in
      if (length vs =? r * c)%nat
      then Ok (mk_ndarray uint8 [r; c] (map Z_of_byte vs))
      else Raise (ValueError "cannot reshape array")
  | _ => Raise (ValueError "Failed to interpret file as a pickle")
  end.

Definition of_item (v : json) : result float :=
  match v with
  | JInt z => Ok (binary_normalize 24 128 z 0 false)
  | JFloat f => Ok f
  | JBool b => Ok (if b then f_one else f_zero)
  | _ => Raise (TypeError "float() argument must be a string or a real number")
  end.

Definition libs : External := {|
  cv2_imdecode := imdecode;
  cv2_resize := resize;
  npscalar := Z;
  np_load := load;
  astype_float32 := fun z => Ok (binary_normalize 24 128 z 0 false);
  float32_of_item := of_item
|}.

(** An image model that answers the same scalar for every input. *)
Definition const_mri (raw : float) : MriModel :=
  {| keras_predict := fun _ => Ok raw |}.

Definition f_two : float := S754_finite false 4503599627370496 (-51).
Definition f_quarter : float := S754_finite false 4503599627370496 (-54).
Definition f_three_quarters : float := S754_finite false 6755399441055744 (-53).

(** A tabular model that answers class [pred] and, when [probs] is given,
    that distribution over the classes 0 and 1. *)
Definition const_voice (pred : Z) (probs : option (list float)) : VoiceModel :=
  {| sk_predict := fun _ => Ok pred;
     sk_predict_proba := match probs with
                         | Some ps => Some (fun _ => Ok ps)
                         | None => None
                         end;
     classes_ := [0; 1] |}.

Definition png : UploadFile :=
  {| filename := Some "scan.png"; content_type := Some "image/png";
     contents := [x50; x0a; x14; x1e] |}.

Definition not_png : UploadFile :=
  {| filename := Some "scan.png"; content_type := Some "image/png";
     contents := [x68; x65; x6c; x6c; x6f] |}.

Definition text_file : UploadFile :=
  {| filename := Some "notes.txt"; content_type := Some "text/plain";
     contents := [x68; x69] |}.

Definition zeros (n : nat) : json := JList (repeat (JFloat f_zero) n).

Definition features_body (n : nat) : json := JDict [("features", zeros n)].

Definition disk_ok : Lazy.Artifacts :=
  {| Lazy.MRI_MODEL_PATH := "models/model_bestmri.h5";
     Lazy.VOICE_MODEL_PATH := "models/voice_model.joblib";
     Lazy.mri_path_exists := true;
     Lazy.voice_path_exists := true;
     Lazy.tf_load_model := Ok (const_mri f_three_quarters);
     Lazy.joblib_load := Ok (const_voice 1 (Some [f_quarter; f_three_quarters])) |}.

(** The image artifact is on disk but does not deserialize. *)
Definition disk_corrupt : Lazy.Artifacts :=
  {| Lazy.MRI_MODEL_PATH := "models/model_bestmri.h5";
     Lazy.VOICE_MODEL_PATH := "models/voice_model.joblib";
     Lazy.mri_path_exists := true;
     Lazy.voice_path_exists := true;
     Lazy.tf_load_model := Raise (Exception "Unable to open file");
     Lazy.joblib_load := Raise (Exception "invalid load key") |}.

Definition disk_empty : Lazy.Artifacts :=
  {| Lazy.MRI_MODEL_PATH := "models/model_bestmri.h5";
     Lazy.VOICE_MODEL_PATH := "models/voice_model.joblib";
     Lazy.mri_path_exists := false;
     Lazy.voice_path_exists := false;
     Lazy.tf_load_model := Raise (Exception "No file or directory found");
     Lazy.joblib_load := Raise (FileNotFoundError "No such file or directory") |}.

(** A tabular model trained on three classes, 0, 1 and 2, that answers
    class 0. *)
Definition three_class_voice : VoiceModel :=
  {| sk_predict := fun _ => Ok 0;
     sk_predict_proba := Some (fun _ => Ok [f_half; f_quarter; f_quarter]);
     classes_ := [0; 1; 2] |}.

(** A second array container: one byte is an array of no dimension, 44
    bytes are an array of shape (1, 22, 2). *)
Definition load_nd (bs : list byte) : result (ndarray Z) :=
  match bs with
  | [v] => Ok (mk_ndarray uint8 [] [Z_of_byte v])
  | _ => if (length bs =? 44)%nat
         then Ok (mk_ndarray uint8 [1%nat; 22%nat; 2%nat] (map Z_of_byte bs))
         else Raise (ValueError "cannot reshape array")
  end.

Definition libs_nd : External := {|
  cv2_imdecode := imdecode;
  cv2_resize := resize;
  npscalar := Z;
  np_load := load_nd;
  astype_float32 := fun z => Ok (binary_normalize 24 128 z 0 false);
  float32_of_item := of_item
|}.

Definition npy (bs : list byte) : UploadFile :=
  {| filename := Some "features.npy"; content_type := Some "application/octet-stream";
     contents := bs |}.

End Sample.

(** * Properties *)

(** ** Floats *)

Example f_one_value : f_one = binary_normalize 53 1024 1 0 false.
Proof. reflexivity. Qed.

Example f_half_value : f_half = binary_normalize 53 1024 1 (-1) false.
Proof. reflexivity. Qed.

Example f_half_twice : SFadd 53 1024 f_half f_half = f_one.
Proof. reflexivity. Qed.

Example np_clip_above : np_clip Sample.f_two f_zero f_one = f_one.
Proof. reflexivity. Qed.

Example np_clip_below : np_clip (SFopp Sample.f_two) f_zero f_one = f_zero.
Proof. reflexivity. Qed.

Example np_clip_infinity : np_clip (S754_infinity false) f_zero f_one = f_one.
Proof. reflexivity. Qed.

Example np_clip_inside : np_clip Sample.f_quarter f_zero f_one = Sample.f_quarter.
Proof. reflexivity. Qed.

Lemma py_lt_le (a b : float) : py_lt a b = true -> py_le a b = true.
Proof.
  unfold py_lt, py_le, SFltb, SFleb.
  destruct (SFcompare a b) as [[ | | ]|]; congruence.
Qed.

Lemma np_clip_nan : np_clip S754_nan f_zero f_one = S754_nan.
Proof. reflexivity. Qed.

Lemma np_clip_cases (x : float) :
  isnan x = false ->
  np_clip x f_zero f_one =
    if py_gt x f_zero then (if py_lt x f_one then x else f_one) else f_zero.
Proof.
  intros Hx. unfold np_clip, np_maximum. rewrite Hx.
  destruct (py_gt x f_zero) eqn:Hgt.
  - unfold np_minimum. rewrite Hx. reflexivity.
  - reflexivity.
Qed.

Lemma np_clip_unit_interval (x : float) :
  isnan x = false -> in_unit_interval (np_clip x f_zero f_one).
Proof.
  intros Hx. rewrite np_clip_cases by assumption.
  destruct (py_gt x f_zero) eqn:Hgt.
  - destruct (py_lt x f_one) eqn:Hlt.
    + split; [apply py_lt_le, Hgt | apply py_lt_le, Hlt].
    + split; reflexivity.
  - split; reflexivity.
Qed.

(** ** The MRI route *)

Section MriRoute.
Context `{External}.

Lemma mri_classify_ok (model : MriModel) (x : ndarray float) (raw : float) :
  keras_predict model x = Ok raw ->
  mri_classify model x =
    Ok (if py_gt (np_clip raw f_zero f_one) f_half then "parkinsons" else "normal",
        np_clip raw f_zero f_one).
Proof. intros Hp. unfold mri_classify. rewrite Hp. reflexivity. Qed.

Lemma eager_predict_mri_ok model file ct x raw :
  truthy_content_type file = Some ct ->
  split_slash_0 ct = "image" ->
  preprocess_mri_from_bytes (contents file) = Ok x ->
  keras_predict model x = Ok raw ->
  Eager.predict_mri model (Some file) =
    Ok {| prediction := if py_gt (np_clip raw f_zero f_one) f_half
                        then "parkinsons" else "normal";
          confidence := np_clip raw f_zero f_one;
          probability := None; inference_time_seconds := None |}.
Proof.
  intros Hct Himg Hx Hp. unfold Eager.predict_mri.
  rewrite Hct, Himg, Hx. cbn. rewrite (mri_classify_ok _ _ _ Hp). reflexivity.
Qed.

Lemma lazy_predict_mri_ok disk t model file ct x raw st st' :
  Lazy.load_mri_model disk st = (Ok model, st') ->
  truthy_content_type file = Some ct ->
  split_slash_0 ct = "image" ->
  preprocess_mri_from_bytes (contents file) = Ok x ->
  keras_predict model x = Ok raw ->
  let c := np_clip raw f_zero f_one in
  let label := if py_gt c f_half then "parkinsons" else "normal" in
  Lazy.predict_mri disk t (Some file) st =
    (Ok {| prediction := label; confidence := c;
           probability := None; inference_time_seconds := Some t |},
     Lazy.logger (Lazy.info_mri_complete label c)
       (Lazy.logger (Lazy.info_processing_mri (filename file) (content_type file)) st')).
Proof.
  intros Hl Hct Himg Hx Hp. unfold Lazy.predict_mri.
  rewrite Hl, Hct, Himg, Hx. cbn. rewrite (mri_classify_ok _ _ _ Hp). reflexivity.
Qed.
End MriRoute.

(** C1, as stated, fails where the model answers NaN: [np.clip] lets NaN
    through, no comparison with NaN holds, and the handler returns the label
    "normal" with a confidence that is not in [0,1]. *)
Lemma mri_confidence_not_clipped_at_nan :
  Eager.predict_mri (H := Sample.libs) (Sample.const_mri S754_nan) (Some Sample.png) =
    Ok {| prediction := "normal"; confidence := S754_nan;
          probability := None; inference_time_seconds := None |}
  /\ ~ in_unit_interval S754_nan.
Proof.
  split.
  - reflexivity.
  - intros [H0 _]. discriminate H0.
Qed.

(** C1 (amended): for every MRI prediction request whose image decodes and
    whose raw model scalar is not NaN, both servers report as confidence the
    raw scalar clipped into [0,1] (the scalar itself when it lies strictly
    between 0 and 1), the label is "parkinsons" exactly when the clipped
    value is greater than 0.5 and "normal" otherwise, and the confidence
    that comes with "normal" is that clipped scalar, not its complement. *)
Theorem mri_prediction_clipped `{External} (model : MriModel) (file : UploadFile)
    (ct : string) (x : ndarray float) (raw : float) :
  truthy_content_type file = Some ct ->
  split_slash_0 ct = "image" ->
  preprocess_mri_from_bytes (contents file) = Ok x ->
  keras_predict model x = Ok raw ->
  isnan raw = false ->
  let c := np_clip raw f_zero f_one in
  let label := if py_gt c f_half then "parkinsons" else "normal" in
  in_unit_interval c /\
  (py_gt raw f_zero = true -> py_lt raw f_one = true -> c = raw) /\
  Eager.predict_mri model (Some file) =
    Ok {| prediction := label; confidence := c;
          probability := None; inference_time_seconds := None |} /\
  (forall disk t st st',
     Lazy.load_mri_model disk st = (Ok model, st') ->
     fst (Lazy.predict_mri disk t (Some file) st) =
       Ok {| prediction := label; confidence := c;
             probability := None; inference_time_seconds := Some t |}).
Proof.
  intros Hct Himg Hx Hp Hnan c label. repeat split.
  - apply (np_clip_unit_interval raw Hnan).
  - apply (np_clip_unit_interval raw Hnan).
  - intros Hgt Hlt. subst c. rewrite np_clip_cases by assumption.
    rewrite Hgt, Hlt. reflexivity.
  - apply (eager_predict_mri_ok model file ct x raw); assumption.
  - intros disk t st st' Hl.
    rewrite (lazy_predict_mri_ok disk t model file ct x raw st st'); auto.
Qed.

Lemma mri_prediction_clipped_witness :
  in_unit_interval (np_clip Sample.f_two f_zero f_one) /\
  Eager.predict_mri (H := Sample.libs) (Sample.const_mri Sample.f_two) (Some Sample.png) =
    Ok {| prediction := "parkinsons"; confidence := f_one;
          probability := None; inference_time_seconds := None |}.
Proof.
  pose proof (mri_prediction_clipped (H := Sample.libs)
                (Sample.const_mri Sample.f_two) Sample.png "image/png"
                (expand_dims_0 (astype_f32_u8
                   (Sample.resize (cvtColor_BGR2RGB
                      (mk_ndarray uint8 [1%nat; 1%nat; 3%nat] [10; 20; 30]))
                      IMG_SIZE INTER_LINEAR)))
                Sample.f_two eq_refl eq_refl eq_refl eq_refl eq_refl)
    as [Hin [_ [Heager _]]].
  split; [exact Hin | exact Heager].
Defined.

(** ** Image preprocessing *)

Lemma bgr2rgb_length (l : list Z) : length (bgr2rgb l) = length l.
Proof.
  revert l. fix IH 1. intros [|b [|g [|r rest]]]; cbn; try reflexivity.
  rewrite IH. reflexivity.
Qed.

Lemma bgr2rgb_Forall (P : Z -> Prop) (l : list Z) :
  Forall P l -> Forall P (bgr2rgb l).
Proof.
  revert l. fix IH 1. intros [|b [|g [|r rest]]] Hl; cbn; try exact Hl.
  inversion Hl as [|? ? Hb Hl1]; subst.
  inversion Hl1 as [|? ? Hg Hl2]; subst.
  inversion Hl2 as [|? ? Hr Hl3]; subst.
  repeat constructor; try assumption. apply IH, Hl3.
Qed.

(** Pixel [k] of the converted image is pixel [k] of the source with its
    first and third channel exchanged. *)
Lemma bgr2rgb_pixel (l : list Z) (k : nat) :
  (3 * k + 3 <= length l)%nat ->
  bgr2rgb l !! (3 * k)%nat = l !! (3 * k + 2)%nat /\
  bgr2rgb l !! (3 * k + 1)%nat = l !! (3 * k + 1)%nat /\
  bgr2rgb l !! (3 * k + 2)%nat = l !! (3 * k)%nat.
Proof.
  revert l. induction k as [|k IH]; intros [|b [|g [|r rest]]] Hk;
    cbn in Hk; try lia.
  - cbn. auto.
  - replace (3 * S k)%nat with (S (S (S (3 * k)))) by lia.
    cbn -[Nat.mul]. apply IH. lia.
Qed.

Lemma cvtColor_is_image h w img :
  is_image h w img -> is_image h w (cvtColor_BGR2RGB img).
Proof.
  intros (Hd & Hs & Hl & Hv). unfold is_image, cvtColor_BGR2RGB; cbn.
  rewrite bgr2rgb_length. auto using bgr2rgb_Forall.
Qed.

Lemma u8_to_f32_table :
  forallb (fun n => let v := Z.of_nat n in
                    match float_to_Z (u8_to_f32 v) with
                    | Some v' => (v' =? v)%Z && valid_binary 24 128 (u8_to_f32 v)
                    | None => false
                    end) (seq 0 256) = true.
Proof. vm_compute. reflexivity. Qed.

(** The cast of a pixel value is exact. *)
Lemma u8_to_f32_exact (v : Z) :
  is_uint8 v ->
  float_to_Z (u8_to_f32 v) = Some v /\ valid_binary 24 128 (u8_to_f32 v) = true.
Proof.
  intros Hv. pose proof u8_to_f32_table as Ht.
  rewrite forallb_forall in Ht. specialize (Ht (Z.to_nat v)).
  unfold is_uint8 in Hv. rewrite Z2Nat.id in Ht by lia.
  assert (Hin : In (Z.to_nat v) (seq 0 256)) by (apply in_seq; lia).
  specialize (Ht Hin). cbn zeta in Ht.
  destruct (float_to_Z (u8_to_f32 v)) as [v'|]; [|discriminate].
  apply andb_prop in Ht as [Heq Hvalid]. apply Z.eqb_eq in Heq. subst v'. auto.
Qed.

(** C3: for every byte stream that decodes (OpenCV keeping its contract on
    the images it returns), the image preprocessor returns a tensor of shape
    (1,128,128,3) and dtype float32 whose values are the decoded pixel values, first and third channel exchanged (BGR to RGB),
    resized to 128x128 with bilinear interpolation, each one cast exactly:
    nothing is scaled or normalized. *)
Theorem preprocess_mri_tensor `{E : External} (bs : list byte) (img : ndarray Z) :
  cv2_contract E ->
  cv2_imdecode bs = Some img ->
  exists h w t,
    let rgb := cvtColor_BGR2RGB img in
    let resized := cv2_resize rgb (128%nat, 128%nat) INTER_LINEAR in
    is_image h w img /\
    (forall k, (k < h * w)%nat ->
       data rgb !! (3 * k)%nat = data img !! (3 * k + 2)%nat /\
       data rgb !! (3 * k + 1)%nat = data img !! (3 * k + 1)%nat /\
       data rgb !! (3 * k + 2)%nat = data img !! (3 * k)%nat) /\
    preprocess_mri_from_bytes bs = Ok t /\
    shape t = [1%nat; 128%nat; 128%nat; 3%nat] /\
    dtype t = float32 /\
    length (data t) = (128 * 128 * 3)%nat /\
    data t = map u8_to_f32 (data resized) /\
    Forall2 (fun x v => is_uint8 v /\ float_to_Z x = Some v /\
                        valid_binary 24 128 x = true) (data t) (data resized).
Proof.
  intros [Hdec Hres] Himg.
  destruct (Hdec bs img Himg) as (h & w & Hi).
  pose proof (cvtColor_is_image h w img Hi) as Hrgb.
  pose proof (Hres _ h w 128%nat 128%nat INTER_LINEAR Hrgb) as (Hd & Hs & Hl & Hv).
  exists h, w. eexists. cbn zeta. split; [exact Hi|]. split.
  { intros k Hk. apply bgr2rgb_pixel. destruct Hi as (_ & _ & Hlen & _). lia. }
  split.
  { unfold preprocess_mri_from_bytes. rewrite Himg. reflexivity. }
  cbn [shape dtype data expand_dims_0 astype_f32_u8]. unfold IMG_SIZE.
  rewrite Hs, length_map, Hl. repeat split.
  apply Forall2_fmap_l, Forall_Forall2_diag.
  eapply Forall_impl; [exact Hv|]. intros v Hv8.
  destruct (u8_to_f32_exact v Hv8). auto.
Qed.

Lemma Z_of_byte_uint8 (b : byte) : is_uint8 (Sample.Z_of_byte b).
Proof.
  unfold is_uint8, Sample.Z_of_byte. pose proof (Byte.to_N_bounded b). lia.
Qed.

Lemma concat_repeat_length {A} (l : list A) (n : nat) :
  length (concat (repeat l n)) = (n * length l)%nat.
Proof. induction n as [|n IH]; cbn; [reflexivity|]. rewrite length_app, IH. lia. Qed.

Lemma concat_repeat_Forall {A} (P : A -> Prop) (l : list A) (n : nat) :
  Forall P l -> Forall P (concat (repeat l n)).
Proof.
  intros Hl. induction n as [|n IH]; cbn; [constructor|].
  apply Forall_app. split; assumption.
Qed.

Lemma sample_cv2_contract : cv2_contract Sample.libs.
Proof.
  split.
  - intros bs img Hdec. exists 1%nat, 1%nat. cbn in Hdec. unfold Sample.imdecode in Hdec.
    destruct bs as [|b0 bs]; [discriminate|].
    destruct b0; try discriminate.
    destruct bs as [|b [|g [|r rest]]]; try discriminate. injection Hdec as <-.
    repeat split; cbn; auto using Z_of_byte_uint8.
  - intros img h w h' w' i (Hd & Hs & Hl & Hv). cbn. unfold Sample.resize.
    assert (Hpix : Forall is_uint8 (take 3 (data img ++ [0; 0; 0]))).
    { apply Forall_take, Forall_app. split; [exact Hv|].
      repeat (constructor; [unfold is_uint8; lia|]). constructor. }
    repeat split; cbn [dtype shape data].
    + rewrite concat_repeat_length, length_take, length_app. cbn [length].
      rewrite Nat.min_l by lia. reflexivity.
    + apply concat_repeat_Forall, Hpix.
Qed.

Lemma preprocess_mri_tensor_witness :
  cv2_contract Sample.libs /\
  exists t, preprocess_mri_from_bytes (H := Sample.libs) (contents Sample.png) = Ok t /\
            shape t = [1%nat; 128%nat; 128%nat; 3%nat] /\ dtype t = float32.
Proof.
  split; [exact sample_cv2_contract|].
  destruct (preprocess_mri_tensor (E := Sample.libs) (contents Sample.png)
              (mk_ndarray uint8 [1%nat; 1%nat; 3%nat] [10; 20; 30])
              sample_cv2_contract eq_refl)
    as (h & w & t & _ & _ & Hok & Hshape & Hdtype & _).
  exists t. auto.
Defined.

(** ** Voice preprocessing *)

Lemma mapM_Ok {A B} (f : A -> result B) (l : list A) (k : list B) :
  mapM f l = Ok k -> Forall2 (fun a b => f a = Ok b) l k.
Proof.
  revert k. induction l as [|a l IH]; intros k Hk; cbn in Hk.
  - injection Hk as <-. constructor.
  - destruct (f a) as [b|e] eqn:Hfa; cbn in Hk; [|discriminate].
    destruct (mapM f l) as [bs|e] eqn:Hl; cbn in Hk; [|discriminate].
    injection Hk as <-. constructor; auto.
Qed.

(** C4: in binary array mode, a parsed numeric array of one dimension and
    length N becomes a (1,N) array with its elements (cast to float32) in the
    same order, so a length-22 array becomes (1,22); and an array of two
    dimensions whose first axis is not 1 is not rejected but flattened to
    one row of all its elements. *)
Theorem npy_reshape_policy `{External} (bs : list byte) (arr : ndarray npscalar)
    (xs : list float) :
  np_load bs = Ok arr ->
  mapM astype_float32 (data arr) = Ok xs ->
  Forall2 (fun a x => astype_float32 a = Ok x) (data arr) xs /\
  (forall N, shape arr = [N] ->
     preprocess_voice_from_npy_bytes bs = Ok (mk_ndarray float32 [1%nat; N] xs)) /\
  (shape arr = [22%nat] ->
     preprocess_voice_from_npy_bytes bs = Ok (mk_ndarray float32 [1%nat; 22%nat] xs)) /\
  (forall R C, shape arr = [R; C] -> R <> 1%nat ->
     preprocess_voice_from_npy_bytes bs = Ok (mk_ndarray float32 [1%nat; (R * C)%nat] xs)).
Proof.
  intros Hload Hcast.
  assert (H1 : forall N, shape arr = [N] ->
     preprocess_voice_from_npy_bytes bs = Ok (mk_ndarray float32 [1%nat; N] xs)).
  { intros N Hs. unfold preprocess_voice_from_npy_bytes.
    rewrite Hload, Hcast. cbn. unfold ndim, reshape_1_m1, size. cbn. rewrite Hs. cbn.
    rewrite Nat.mul_1_r. reflexivity. }
  split; [apply mapM_Ok, Hcast|]. split; [exact H1|]. split; [apply H1|].
  intros R C Hs HR. unfold preprocess_voice_from_npy_bytes.
  rewrite Hload, Hcast. cbn. unfold ndim, reshape_1_m1, size. cbn. rewrite Hs. cbn.
  destruct (Nat.eqb_spec R 1) as [->|_]; [contradiction|]. cbn.
  rewrite Nat.mul_1_r. reflexivity.
Qed.

Lemma npy_reshape_policy_witness :
  preprocess_voice_from_npy_bytes (H := Sample.libs) (x01 :: repeat x07 22) =
    Ok (mk_ndarray float32 [1%nat; 22%nat] (repeat (u8_to_f32 7) 22)) /\
  preprocess_voice_from_npy_bytes (H := Sample.libs) (x02 :: x02 :: x0b :: repeat x07 22) =
    Ok (mk_ndarray float32 [1%nat; 22%nat] (repeat (u8_to_f32 7) 22)).
Proof.
  split.
  - exact (proj1 (proj2 (proj2
      (npy_reshape_policy (H := Sample.libs) (x01 :: repeat x07 22)
         (mk_ndarray uint8 [22%nat] (repeat 7 22)) (repeat (u8_to_f32 7) 22)
         eq_refl eq_refl))) eq_refl).
  - exact (proj2 (proj2 (proj2
      (npy_reshape_policy (H := Sample.libs) (x02 :: x02 :: x0b :: repeat x07 22)
         (mk_ndarray uint8 [2%nat; 11%nat] (repeat 7 22)) (repeat (u8_to_f32 7) 22)
         eq_refl eq_refl))) 2%nat 11%nat eq_refl ltac:(discriminate)).
Defined.

Section VoiceInput.
Context `{External}.

Lemma np_array_f32_item (v : json) (x : float) :
  isinstance_list v = false -> float32_of_item v = Ok x ->
  np_array_f32 v = Ok (mk_ndarray float32 [] [x]).
Proof. intros Hv Hx. destruct v; try discriminate; cbn; rewrite Hx; reflexivity. Qed.

Lemma np_array_f32_flat (l : list json) :
  Forall is_feature l ->
  exists xs, np_array_f32 (JList l) = Ok (mk_ndarray float32 [length l] xs).
Proof.
  intros Hl.
  assert (Hitems : exists xs,
    (fix items (l : list json) : result (list (ndarray float)) :=
       match l with
       | [] => Ok []
       | x :: l' => a ← np_array_f32 x; rest ← items l'; Ok (a :: rest)
       end) l = Ok (map (fun x => mk_ndarray float32 [] [x]) xs)
    /\ length xs = length l).
  { induction Hl as [|v l [Hv [x Hx]] _ IH].
    - exists []. auto.
    - destruct IH as (xs & IH & Hlen). exists (x :: xs).
      rewrite (np_array_f32_item v x Hv Hx). cbn. rewrite IH. cbn. auto. }
  destruct Hitems as (xs & Hitems & Hlen).
  cbn. rewrite Hitems. cbn. unfold stack.
  destruct xs as [|x xs]; cbn.
  - destruct l; [|discriminate]. eauto.
  - rewrite bool_decide_eq_true_2 by reflexivity. cbn.
    replace (forallb _ _) with true.
    + rewrite length_map. cbn in Hlen. rewrite Hlen. eauto.
    + symmetry. apply forallb_forall. intros b Hb.
      apply in_map_iff in Hb as (y & <- & _). apply bool_decide_eq_true_2. reflexivity.
Qed.

Lemma preprocess_voice_from_list_flat (l : list json) :
  Forall is_feature l ->
  exists xs, preprocess_voice_from_list (JList l) =
               Ok (mk_ndarray float32 [1%nat; length l] xs).
Proof.
  intros Hl. destruct (np_array_f32_flat l Hl) as (xs & Hxs). exists xs.
  unfold preprocess_voice_from_list. rewrite Hxs. cbn.
  unfold reshape_1_m1, size. cbn. rewrite Nat.mul_1_r. reflexivity.
Qed.

Lemma eager_voice_count_mismatch voice_model request_json file arr n :
  Eager.voice_input request_json file = Ok arr ->
  shape arr !! 1%nat = Some n -> n <> 22%nat ->
  Eager.predict_voice voice_model request_json file =
    Raise (HTTPException 400 ("Expected 22 features, got " +:+ str_nat n)).
Proof.
  intros Harr Hn Hne. unfold Eager.predict_voice. rewrite Harr. cbn.
  unfold shape_1. rewrite Hn. cbn.
  destruct (Nat.eqb_spec n 22) as [->|_]; [contradiction|]. reflexivity.
Qed.

Lemma lazy_voice_count_mismatch disk t request_json file model st st1 st2 arr n :
  Lazy.load_voice_model disk st = (Ok model, st1) ->
  Lazy.voice_input request_json file (Lazy.logger Lazy.info_processing_voice st1)
    = (Ok arr, st2) ->
  shape arr !! 1%nat = Some n -> n <> 22%nat ->
  Lazy.predict_voice disk t request_json file st =
    (Raise (HTTPException 400
              ("Expected 22 features, got " +:+ str_nat n +:+
               ". Please provide all required voice measurements.")), st2).
Proof.
  intros Hload Harr Hn Hne. unfold Lazy.predict_voice. rewrite Hload, Harr. cbn.
  unfold shape_1. rewrite Hn. cbn.
  destruct (Nat.eqb_spec n 22) as [->|_]; [contradiction|]. reflexivity.
Qed.

Lemma eager_voice_input_features items l :
  dict_get "features" items = Some (JList l) ->
  Eager.voice_input (Ok (JDict items)) None = preprocess_voice_from_list (JList l).
Proof. intros Hf. unfold Eager.voice_input. cbn. rewrite Hf. reflexivity. Qed.

Lemma lazy_voice_input_features items l st :
  dict_get "features" items = Some (JList l) ->
  Lazy.voice_input (Ok (JDict items)) None st =
    (preprocess_voice_from_list (JList l), st).
Proof. intros Hf. unfold Lazy.voice_input. cbn. rewrite Hf. reflexivity. Qed.
End VoiceInput.

(** C2, as stated, fails on the lazy-loading server: for a JSON body with 21
    features its message is longer than "Expected 22 features, got 21". *)
Lemma lazy_count_message_is_longer :
  fst (Lazy.predict_voice (H := Sample.libs) Sample.disk_ok f_zero
         (Ok (Sample.features_body 21)) None Lazy.initial) =
    Raise (HTTPException 400
      "Expected 22 features, got 21. Please provide all required voice measurements.")
  /\ "Expected 22 features, got 21. Please provide all required voice measurements."
       <> "Expected 22 features, got 21".
Proof. split; [vm_compute; reflexivity | discriminate]. Qed.

(** C2 (amended): for every voice prediction request whose preprocessed
    array has a width other than 22, both servers fail with status 400 and a
    message that states the expected count 22 and the actual count:
    "Expected 22 features, got <n>" on [src/app.py], and the same text
    followed by ". Please provide all required voice measurements." on
    [src/ml-server/app.py]; so for a JSON body with 21 features the message
    is "Expected 22 features, got 21" on the former and begins with it on
    the latter. *)
Theorem voice_feature_count_mismatch `{External} (voice_model : VoiceModel) :
  (forall request_json file arr n,
     Eager.voice_input request_json file = Ok arr ->
     shape arr !! 1%nat = Some n -> n <> 22%nat ->
     Eager.predict_voice voice_model request_json file =
       Raise (HTTPException 400 ("Expected 22 features, got " +:+ str_nat n))) /\
  (forall disk t request_json file st st1 st2 arr n,
     Lazy.load_voice_model disk st = (Ok voice_model, st1) ->
     Lazy.voice_input request_json file (Lazy.logger Lazy.info_processing_voice st1)
       = (Ok arr, st2) ->
     shape arr !! 1%nat = Some n -> n <> 22%nat ->
     fst (Lazy.predict_voice disk t request_json file st) =
       Raise (HTTPException 400
                ("Expected 22 features, got " +:+ str_nat n +:+
                 ". Please provide all required voice measurements."))) /\
  (forall items l,
     dict_get "features" items = Some (JList l) ->
     Forall is_feature l -> length l = 21%nat ->
     Eager.predict_voice voice_model (Ok (JDict items)) None =
       Raise (HTTPException 400 "Expected 22 features, got 21") /\
     forall disk t st st1,
       Lazy.load_voice_model disk st = (Ok voice_model, st1) ->
       fst (Lazy.predict_voice disk t (Ok (JDict items)) None st) =
         Raise (HTTPException 400
           "Expected 22 features, got 21. Please provide all required voice measurements.")).
Proof.
  split; [|split].
  - intros. eapply eager_voice_count_mismatch; eassumption.
  - intros disk t request_json file st st1 st2 arr n Hload Harr Hn Hne.
    erewrite lazy_voice_count_mismatch; eauto.
  - intros items l Hf Hl Hlen.
    destruct (preprocess_voice_from_list_flat l Hl) as (xs & Hxs). rewrite Hlen in Hxs.
    split.
    + apply (eager_voice_count_mismatch voice_model _ _
               (mk_ndarray float32 [1%nat; 21%nat] xs) 21%nat);
        [rewrite (eager_voice_input_features items l Hf); exact Hxs
        | reflexivity | discriminate].
    + intros disk t st st1 Hload.
      erewrite (lazy_voice_count_mismatch disk t _ _ voice_model st st1 _
                  (mk_ndarray float32 [1%nat; 21%nat] xs) 21%nat);
        [reflexivity | exact Hload
        | rewrite (lazy_voice_input_features items l _ Hf), Hxs; reflexivity
        | reflexivity | discriminate].
Qed.

Lemma voice_feature_count_mismatch_witness :
  Eager.predict_voice (H := Sample.libs) (Sample.const_voice 1 None)
    (Ok (Sample.features_body 21)) None =
    Raise (HTTPException 400 "Expected 22 features, got 21") /\
  Eager.predict_voice (H := Sample.libs) (Sample.const_voice 1 None)
    (Raise (Exception "no body"))
    (Some {| filename := Some "v.npy"; content_type := None;
             contents := x01 :: repeat x07 5 |}) =
    Raise (HTTPException 400 "Expected 22 features, got 5").
Proof.
  pose proof (voice_feature_count_mismatch (H := Sample.libs) (Sample.const_voice 1 None))
    as (Hany & _ & Hjson).
  split.
  - refine (proj1 (Hjson [("features", Sample.zeros 21)] (repeat (JFloat f_zero) 21)
                     eq_refl _ eq_refl)).
    apply List.Forall_forall. intros v Hv. apply repeat_spec in Hv. subst v.
    split; [reflexivity | exists f_zero; reflexivity].
  - apply (Hany _ _ (mk_ndarray float32 [1%nat; 5%nat] (repeat (u8_to_f32 7) 5)) 5%nat);
      [reflexivity | reflexivity | discriminate].
Defined.

(** ** The order of floats *)

Ltac compare_cases :=
  repeat match goal with
  | H : context [Z.compare ?x ?y] |- _ => destruct (Z.compare_spec x y); subst
  | |- context [Z.compare ?x ?y] => destruct (Z.compare_spec x y); subst
  | H : context [Pos.compare_cont Eq ?x ?y] |- _ =>
      change (Pos.compare_cont Eq x y) with (Pos.compare x y) in H
  | |- context [Pos.compare_cont Eq ?x ?y] =>
      change (Pos.compare_cont Eq x y) with (Pos.compare x y)
  | H : context [Pos.compare ?x ?y] |- _ => destruct (Pos.compare_spec x y); subst
  | |- context [Pos.compare ?x ?y] => destruct (Pos.compare_spec x y); subst
  end.

Lemma SFltb_irrefl (a : float) : SFltb a a = false.
Proof.
  unfold SFltb, SFcompare. destruct a as [s|s| |s m e]; try destruct s; try reflexivity;
    compare_cases; cbn; try reflexivity; lia.
Qed.

Lemma SFltb_trans (a b c : float) :
  SFltb a b = true -> SFltb b c = true -> SFltb a c = true.
Proof.
  unfold SFltb, SFcompare.
  destruct a as [sa|sa| |sa ma ea], b as [sb|sb| |sb mb eb], c as [sc|sc| |sc mc ec];
    try destruct sa; try destruct sb; try destruct sc; cbn;
    try discriminate; try reflexivity;
    intros Hab Hbc; compare_cases; cbn in *; try discriminate; try reflexivity; lia.
Qed.

Lemma SFcompare_antisym (a b : float) :
  SFcompare b a = option_map CompOpp (SFcompare a b).
Proof.
  unfold SFcompare.
  destruct a as [sa|sa| |sa ma ea], b as [sb|sb| |sb mb eb];
    try destruct sa; try destruct sb; cbn; try reflexivity;
    compare_cases; cbn; try reflexivity; lia.
Qed.

Lemma py_gt_false_le (p m : float) :
  isnan p = false -> isnan m = false -> py_gt p m = false -> py_le p m = true.
Proof.
  intros Hp Hm Hgt. unfold py_gt, SFltb in Hgt. unfold py_le, SFleb.
  rewrite (SFcompare_antisym m p).
  destruct (SFcompare m p) as [[ | | ]|] eqn:Hc; cbn; try reflexivity; try discriminate.
  destruct p, m; cbn in *; discriminate.
Qed.

(** ** The label dictionary and the probability mapping *)

Lemma VOICE_LABELS_lookup (c : Z) (l : string) :
  VOICE_LABELS !! c = Some l <->
  (c = 0 /\ l = "healthy") \/ (c = 1 /\ l = "parkinsons").
Proof.
  unfold VOICE_LABELS. rewrite !lookup_insert_Some, lookup_empty.
  split.
  - intros [[<- <-]|[Hc [[<- <-]|[_ Hn]]]]; auto. discriminate.
  - intros [[-> ->]|[-> ->]]; [left|right; split; [|left]]; auto.
Qed.

Lemma VOICE_LABELS_inj (c1 c2 : Z) (l : string) :
  VOICE_LABELS !! c1 = Some l -> VOICE_LABELS !! c2 = Some l -> c1 = c2.
Proof.
  rewrite !VOICE_LABELS_lookup.
  intros [[-> ->]|[-> ->]] [[-> H]|[-> H]]; try reflexivity; discriminate.
Qed.

Lemma fill_prob_dict_frame pairs d pd (l : string) :
  fill_prob_dict pairs d = Ok pd ->
  (forall c p, In (c, p) pairs -> VOICE_LABELS !! c <> Some l) ->
  pd !! l = d !! l.
Proof.
  revert d. induction pairs as [|[c p] pairs IH]; intros d Hfill Hl; cbn in Hfill.
  - injection Hfill as <-. reflexivity.
  - destruct (VOICE_LABELS !! c) as [l0|] eqn:Hc; [|discriminate].
    rewrite (IH _ Hfill) by (intros c' p' Hin'; apply (Hl c' p'); right; assumption).
    apply lookup_insert_ne. intros ->. apply (Hl c p); [left; reflexivity | exact Hc].
Qed.

Lemma fill_prob_dict_dom pairs d pd (l : string) :
  fill_prob_dict pairs d = Ok pd ->
  is_Some (pd !! l) <->
  is_Some (d !! l) \/ exists c p, In (c, p) pairs /\ VOICE_LABELS !! c = Some l.
Proof.
  revert d. induction pairs as [|[c p] pairs IH]; intros d Hfill; cbn in Hfill.
  - injection Hfill as <-. split; [auto|]. intros [H|(c & p & [] & _)]. exact H.
  - destruct (VOICE_LABELS !! c) as [l0|] eqn:Hc; [|discriminate].
    rewrite (IH _ Hfill). rewrite lookup_insert_is_Some. split.
    + intros [[<-|[_ H]]|(c' & p' & Hin & Hc')].
      * right. exists c, p. split; [left; reflexivity | exact Hc].
      * left. exact H.
      * right. exists c', p'. split; [right; exact Hin | exact Hc'].
    + intros [H|(c' & p' & [Heq|Hin] & Hc')].
      * destruct (decide (l0 = l)) as [->|Hne]; [left; left; reflexivity|].
        left. right. auto.
      * injection Heq as -> ->. left. left. congruence.
      * right. exists c', p'. auto.
Qed.

Lemma fill_prob_dict_value pairs d pd :
  fill_prob_dict pairs d = Ok pd ->
  NoDup (map fst pairs) ->
  forall c p, In (c, p) pairs ->
  exists l, VOICE_LABELS !! c = Some l /\ pd !! l = Some p.
Proof.
  revert d. induction pairs as [|[c0 p0] pairs IH]; intros d Hfill Hnd c p Hin;
    [destruct Hin|]. cbn in Hfill.
  destruct (VOICE_LABELS !! c0) as [l0|] eqn:Hc0; [|discriminate].
  cbn in Hnd. apply NoDup_cons in Hnd as [Hnotin Hnd].
  destruct Hin as [Heq|Hin].
  - injection Heq as <- <-. exists l0. split; [exact Hc0|].
    rewrite (fill_prob_dict_frame _ _ _ l0 Hfill).
    + apply lookup_insert_eq.
    + intros c' p' Hin' Hc'. apply Hnotin.
      rewrite (VOICE_LABELS_inj _ _ _ Hc0 Hc').
      apply list_elem_of_In, in_map_iff. exists (c', p'). auto.
  - apply (IH _ Hfill Hnd c p Hin).
Qed.

Lemma combine_lookup {A B} (l : list A) (k : list B) (i : nat) a b :
  l !! i = Some a -> k !! i = Some b -> In (a, b) (combine l k).
Proof.
  revert k i. induction l as [|x l IH]; intros [|y k] [|i] Hl Hk; try discriminate.
  - injection Hl as <-. injection Hk as <-. left. reflexivity.
  - right. apply (IH k i); assumption.
Qed.

Lemma combine_In_l {A B} (l : list A) (k : list B) a :
  (length l <= length k)%nat -> In a l -> exists b, In (a, b) (combine l k).
Proof.
  revert k. induction l as [|x l IH]; intros [|y k] Hlen Hin; cbn in *;
    try lia; try contradiction.
  destruct Hin as [<-|Hin].
  - exists y. left. reflexivity.
  - destruct (IH k ltac:(lia) Hin) as (b & Hb). exists b. right. exact Hb.
Qed.

Lemma combine_fst {A B} (l : list A) (k : list B) :
  (length l <= length k)%nat -> map fst (combine l k) = l.
Proof.
  revert k. induction l as [|x l IH]; intros [|y k] Hlen; cbn in *;
    try lia; try reflexivity. rewrite IH by lia. reflexivity.
Qed.

Lemma fill_prob_dict_distribution classes probs pd :
  NoDup classes -> length probs = length classes ->
  fill_prob_dict (combine classes probs) ∅ = Ok pd ->
  distribution_over classes probs pd.
Proof.
  intros Hnd Hlen Hfill. split.
  - intros l. rewrite (fill_prob_dict_dom _ _ _ l Hfill), lookup_empty. split.
    + intros [[? H]|(c & p & Hin & Hc)]; [discriminate|].
      exists c. split; [eapply in_combine_l, Hin | exact Hc].
    + intros (c & Hin & Hc). right.
      destruct (combine_In_l classes probs c ltac:(lia) Hin) as (p & Hp). eauto.
  - intros i c p Hc Hp. apply (fill_prob_dict_value _ _ _ Hfill).
    + rewrite combine_fst by lia. exact Hnd.
    + eapply combine_lookup; eassumption.
Qed.

(** ** [max] over the probabilities *)

Lemma fold_max_in (rest : list float) (x : float) :
  In (fold_left (fun m y => if py_gt y m then y else m) rest x) (x :: rest).
Proof.
  revert x. induction rest as [|y rest IH]; intros x; cbn.
  - left. reflexivity.
  - destruct (IH (if py_gt y x then y else x)) as [Heq|Hin].
    + destruct (py_gt y x); rewrite <- Heq; auto.
    + right. right. exact Hin.
Qed.

Lemma fold_max_upper (rest seen : list float) (x : float) :
  (forall p, In p seen -> py_gt p x = false) ->
  forall p, In p (seen ++ rest) ->
  py_gt p (fold_left (fun m y => if py_gt y m then y else m) rest x) = false.
Proof.
  revert seen x. induction rest as [|y rest IH]; intros seen x Hseen p Hp; cbn.
  - rewrite app_nil_r in Hp. apply Hseen, Hp.
  - apply (IH (seen ++ [y])).
    + intros q Hq. apply in_app_or in Hq as [Hq|[<-|[]]].
      * destruct (py_gt y x) eqn:Hyx; [|apply Hseen, Hq].
        specialize (Hseen q Hq). unfold py_gt in *.
        destruct (SFltb y q) eqn:Hyq; [|reflexivity].
        rewrite (SFltb_trans x y q Hyx Hyq) in Hseen. discriminate.
      * destruct (py_gt y x) eqn:Hyx; [apply SFltb_irrefl | exact Hyx].
    + rewrite <- app_assoc. exact Hp.
Qed.

Lemma py_max_is_max (probs : list float) (conf : float) :
  py_max probs = Some conf -> is_max_of probs conf.
Proof.
  destruct probs as [|x rest]; [discriminate|]. cbn. intros [= <-].
  assert (Hup : forall p, In p (x :: rest) ->
            py_gt p (fold_left (fun m y => if py_gt y m then y else m) rest x) = false).
  { apply (fold_max_upper rest [x] x).
    intros p [<-|[]]. apply SFltb_irrefl. }
  split; [apply fold_max_in|]. split; [exact Hup|].
  intros Hnan p Hp. rewrite List.Forall_forall in Hnan.
  apply py_gt_false_le; auto. apply Hnan, fold_max_in.
Qed.

(** ** The voice route *)

Lemma default_label_spec (pred : Z) :
  label_spec pred (default (str_Z pred) (VOICE_LABELS !! pred)).
Proof.
  unfold label_spec. split; [|split].
  - intros ->. reflexivity.
  - intros ->. reflexivity.
  - intros H0 H1. destruct (VOICE_LABELS !! pred) as [l|] eqn:Hl.
    + apply VOICE_LABELS_lookup in Hl as [[-> _]|[-> _]]; contradiction.
    + cbn. split; [reflexivity|]. unfold str_Z.
      destruct pred as [|q|q]; cbn; try contradiction;
        destruct (Pos.to_uint q); cbn; split; discriminate.
Qed.

Lemma voice_classify_inv (m : VoiceModel) (flag : bool) arr label conf pd :
  voice_classify m flag arr = Ok (label, conf, pd) ->
  exists pred, sk_predict m arr = Ok pred /\
    label = default (str_Z pred) (VOICE_LABELS !! pred) /\
    if flag then
      exists predict_proba probs,
        sk_predict_proba m = Some predict_proba /\ predict_proba arr = Ok probs /\
        fill_prob_dict (combine (classes_ m) probs) ∅ = Ok pd /\
        py_max probs = Some conf
    else conf = f_one /\ pd = <[label := f_one]> ∅.
Proof.
  unfold voice_classify. intros Hc.
  destruct (sk_predict m arr) as [pred|e] eqn:Hpred; cbn in Hc; [|discriminate].
  exists pred. split; [reflexivity|]. destruct flag.
  - destruct (sk_predict_proba m) as [f|]; [|discriminate].
    destruct (f arr) as [probs|e] eqn:Hf; cbn in Hc; [|discriminate].
    destruct (fill_prob_dict _ _) as [pd'|e] eqn:Hfill; cbn in Hc; [|discriminate].
    destruct (py_max probs) as [c|] eqn:Hmax; [|discriminate].
    injection Hc as <- <- <-. split; [reflexivity|]. exists f, probs. auto.
  - injection Hc as <- <- <-. auto.
Qed.

Section VoiceRoute.
Context `{External}.

Lemma eager_predict_voice_inv voice_model request_json file resp :
  Eager.predict_voice voice_model request_json file = Ok resp ->
  exists arr label conf pd,
    Eager.voice_input request_json file = Ok arr /\
    shape arr !! 1%nat = Some 22%nat /\
    voice_classify voice_model (hasattr_predict_proba voice_model) arr
      = Ok (label, conf, pd) /\
    resp = {| prediction := label; confidence := conf;
              probability := Some pd; inference_time_seconds := None |}.
Proof.
  unfold Eager.predict_voice, try_except. intros Hr.
  destruct (Eager.voice_input request_json file) as [arr|e] eqn:Harr; cbn in Hr;
    [|destruct (is_HTTPException e); discriminate].
  unfold shape_1 in Hr.
  destruct (shape arr !! 1%nat) as [n|] eqn:Hn; cbn in Hr; [|discriminate].
  destruct (Nat.eqb_spec n 22) as [->|Hne]; cbn in Hr; [|discriminate].
  unfold Eager._voice_has_proba in Hr.
  destruct (voice_classify _ _ arr) as [[[label conf] pd]|e] eqn:Hc; cbn in Hr;
    [|destruct (is_HTTPException e); discriminate].
  injection Hr as <-. exists arr, label, conf, pd. auto.
Qed.

Lemma lazy_predict_voice_inv disk t request_json file st resp :
  fst (Lazy.predict_voice disk t request_json file st) = Ok resp ->
  exists model st1 arr label conf pd,
    Lazy.load_voice_model disk st = (Ok model, st1) /\
    fst (Lazy.voice_input request_json file
           (Lazy.logger Lazy.info_processing_voice st1)) = Ok arr /\
    shape arr !! 1%nat = Some 22%nat /\
    voice_classify model (Lazy._voice_has_proba st1) arr = Ok (label, conf, pd) /\
    resp = {| prediction := label; confidence := conf;
              probability := Some pd; inference_time_seconds := Some t |}.
Proof.
  unfold Lazy.predict_voice. intros Hr.
  destruct (Lazy.load_voice_model disk st) as [[model|e] st1] eqn:Hload;
    [|discriminate].
  destruct (Lazy.voice_input _ _ _) as [arr st2] eqn:Hin.
  assert (Hflag : Lazy._voice_has_proba st2 = Lazy._voice_has_proba st1).
  { unfold Lazy.voice_input in Hin.
    destruct file; [|destruct request_json]; injection Hin as _ <-; reflexivity. }
  rewrite Hflag in Hr.
  destruct arr as [arr|e]; cbn in Hr;
    [|destruct (is_HTTPException e); discriminate].
  unfold shape_1 in Hr.
  destruct (shape arr !! 1%nat) as [n|] eqn:Hn; cbn in Hr; [|discriminate].
  destruct (Nat.eqb_spec n 22) as [->|Hne]; cbn in Hr.
  - destruct (voice_classify _ _ arr) as [[[label conf] pd]|e] eqn:Hc; cbn in Hr;
      [|destruct (is_HTTPException e); discriminate].
    injection Hr as <-. exists model, st1, arr, label, conf, pd.
    rewrite Hin. auto.
  - discriminate.
Qed.

Lemma lazy_load_voice_flag disk st model st1 :
  Lazy.consistent st ->
  Lazy.load_voice_model disk st = (Ok model, st1) ->
  Lazy._voice_has_proba st1 = hasattr_predict_proba model.
Proof.
  unfold Lazy.load_voice_model. intros Hcons Hload.
  destruct (Lazy.voice_model st) as [m|] eqn:Hm.
  - injection Hload as <- <-. apply Hcons, Hm.
  - destruct (Lazy.voice_path_exists disk); cbn in Hload; [|discriminate].
    destruct (Lazy.joblib_load disk) as [m|e]; [|discriminate].
    injection Hload as <- <-. reflexivity.
Qed.
End VoiceRoute.

Lemma voice_classify_response (m : VoiceModel) arr label conf pd (t : option float) :
  sklearn_contract m ->
  voice_classify m (hasattr_predict_proba m) arr = Ok (label, conf, pd) ->
  voice_response_spec m {| prediction := label; confidence := conf;
                           probability := Some pd; inference_time_seconds := t |}.
Proof.
  intros [Hnd Hlen] Hc. apply voice_classify_inv in Hc as (pred & _ & _ & Hflag).
  exists pd. split; [reflexivity|]. unfold hasattr_predict_proba in Hflag.
  destruct (sk_predict_proba m) as [f|] eqn:Hf.
  - destruct Hflag as (f' & probs & [= <-] & Hprobs & Hfill & Hmax).
    exists arr, probs. split; [exact Hprobs|]. split.
    + apply fill_prob_dict_distribution; eauto.
    + apply py_max_is_max, Hmax.
  - destruct Hflag as [-> ->]. auto.
Qed.

(** The flag agrees with the cached voice model in every state the server
    reaches. *)
Lemma consistent_initial : Lazy.consistent Lazy.initial.
Proof. intros m Hm. discriminate Hm. Qed.

Lemma consistent_logger r st : Lazy.consistent st -> Lazy.consistent (Lazy.logger r st).
Proof. intros Hc m Hm. apply Hc, Hm. Qed.

Lemma consistent_load_mri disk st :
  Lazy.consistent st -> Lazy.consistent (snd (Lazy.load_mri_model disk st)).
Proof.
  intros Hc. unfold Lazy.load_mri_model.
  destruct (Lazy.mri_model st); [exact Hc|].
  destruct (Lazy.mri_path_exists disk); cbn;
    [destruct (Lazy.tf_load_model disk); cbn|]; intros m Hm; apply Hc, Hm.
Qed.

Lemma consistent_load_voice disk st :
  Lazy.consistent st -> Lazy.consistent (snd (Lazy.load_voice_model disk st)).
Proof.
  intros Hc. unfold Lazy.load_voice_model.
  destruct (Lazy.voice_model st) eqn:Hv; [exact Hc|].
  destruct (Lazy.voice_path_exists disk); cbn;
    [destruct (Lazy.joblib_load disk); cbn|]; intros m Hm; cbn in Hm;
    try (apply Hc, Hm).
  injection Hm as <-. reflexivity.
Qed.

Lemma consistent_predict_mri `{External} disk t file st :
  Lazy.consistent st -> Lazy.consistent (snd (Lazy.predict_mri disk t file st)).
Proof.
  intros Hc. pose proof (consistent_load_mri disk st Hc) as Hl.
  unfold Lazy.predict_mri.
  destruct (Lazy.load_mri_model disk st) as [[model|e] st1]; cbn in Hl |- *; [|exact Hl].
  destruct file as [f|]; [|exact Hl].
  destruct (match truthy_content_type f with
            | Some ct => negb (String.eqb (split_slash_0 ct) "image")
            | None => true
            end); [exact Hl|].
  destruct (preprocess_mri_from_bytes (contents f)) as [x|e]; cbn.
  - destruct (mri_classify model x) as [[label prob]|e]; cbn;
      [|destruct (is_ValueError e); cbn]; repeat apply consistent_logger; exact Hl.
  - destruct (is_ValueError e); cbn; repeat apply consistent_logger; exact Hl.
Qed.

Lemma consistent_predict_voice `{External} disk t request_json file st :
  Lazy.consistent st ->
  Lazy.consistent (snd (Lazy.predict_voice disk t request_json file st)).
Proof.
  intros Hc. pose proof (consistent_load_voice disk st Hc) as Hl.
  unfold Lazy.predict_voice.
  destruct (Lazy.load_voice_model disk st) as [[model|e] st1]; cbn in Hl |- *; [|exact Hl].
  destruct (Lazy.voice_input _ _ _) as [arr st2] eqn:Hin.
  assert (Hc2 : Lazy.consistent st2).
  { unfold Lazy.voice_input in Hin.
    destruct file; [|destruct request_json]; injection Hin as _ <-;
      repeat apply consistent_logger; exact Hl. }
  match goal with
  | |- context [match ?r with Ok _ => _ | Raise _ => _ end] => destruct r as [[[l c] pd]|e]
  end; cbn; [|destruct (is_HTTPException e); cbn];
    repeat apply consistent_logger; exact Hc2.
Qed.

(** C5: for every successful voice prediction by a model that keeps
    scikit-learn's contract, if the tabular model supports probability
    estimation, the probability mapping of the response has as
    keys the labels of the classes the model knows, each class id mapped
    through the label dictionary {0: "healthy", 1: "parkinsons"} and carrying
    its probability, and the confidence is the greatest probability of that
    distribution; if it does not, the mapping gives exactly 1.0 to the
    predicted label and nothing else, and the confidence is 1.0. *)
Theorem voice_probability_mapping `{External} (voice_model : VoiceModel) :
  sklearn_contract voice_model ->
  (VOICE_LABELS !! 0 = Some "healthy" /\ VOICE_LABELS !! 1 = Some "parkinsons" /\
   (forall c1 c2 l, VOICE_LABELS !! c1 = Some l -> VOICE_LABELS !! c2 = Some l ->
                    c1 = c2)) /\
  (forall request_json file resp,
     Eager.predict_voice voice_model request_json file = Ok resp ->
     voice_response_spec voice_model resp) /\
  (forall disk t request_json file st st1 resp,
     Lazy.consistent st ->
     Lazy.load_voice_model disk st = (Ok voice_model, st1) ->
     fst (Lazy.predict_voice disk t request_json file st) = Ok resp ->
     voice_response_spec voice_model resp).
Proof.
  intros Hsk. split; [|split].
  - split; [reflexivity|]. split; [reflexivity|]. apply VOICE_LABELS_inj.
  - intros request_json file resp Hr.
    apply eager_predict_voice_inv in Hr as (arr & label & conf & pd & _ & _ & Hc & ->).
    eapply voice_classify_response; eassumption.
  - intros disk t request_json file st st1 resp Hcons Hload Hr.
    apply lazy_predict_voice_inv in Hr
      as (model & st1' & arr & label & conf & pd & Hload' & _ & _ & Hc & ->).
    rewrite Hload in Hload'. injection Hload' as <- <-.
    rewrite (lazy_load_voice_flag disk st voice_model st1 Hcons Hload) in Hc.
    eapply voice_classify_response; eassumption.
Qed.

Lemma sample_sklearn_contract pred ps :
  length ps = 2%nat -> sklearn_contract (Sample.const_voice pred (Some ps)).
Proof.
  intros Hps. split; cbn.
  - apply NoDup_cons. split; [|apply NoDup_singleton].
    intros Hin. apply list_elem_of_In in Hin. destruct Hin as [Heq|[]]. discriminate.
  - intros f arr probs [= <-] [= <-]. exact Hps.
Qed.

Lemma voice_probability_mapping_witness :
  voice_response_spec (Sample.const_voice 1 (Some [Sample.f_quarter; Sample.f_three_quarters]))
    {| prediction := "parkinsons"; confidence := Sample.f_three_quarters;
       probability := Some (<["parkinsons" := Sample.f_three_quarters]>
                              (<["healthy" := Sample.f_quarter]> ∅));
       inference_time_seconds := None |} /\
  voice_response_spec (Sample.const_voice 1 (Some [Sample.f_quarter; Sample.f_three_quarters]))
    {| prediction := "parkinsons"; confidence := Sample.f_three_quarters;
       probability := Some (<["parkinsons" := Sample.f_three_quarters]>
                              (<["healthy" := Sample.f_quarter]> ∅));
       inference_time_seconds := Some f_zero |}.
Proof.
  pose proof (voice_probability_mapping (H := Sample.libs)
       (Sample.const_voice 1 (Some [Sample.f_quarter; Sample.f_three_quarters]))
       (sample_sklearn_contract 1 [Sample.f_quarter; Sample.f_three_quarters] eq_refl))
    as (_ & Heager & Hlazy).
  split.
  - exact (Heager (Ok (Sample.features_body 22)) None _ eq_refl).
  - exact (Hlazy Sample.disk_ok f_zero (Ok (Sample.features_body 22)) None
             Lazy.initial _ _ consistent_initial eq_refl eq_refl).
Defined.

(** C10: for every voice prediction in which the model predicts a class id
    outside {0,1}, the prediction field of the response is the decimal
    string of that class id, which is neither "healthy" nor "parkinsons"
    (the lookup falls back to [str(pred)]); the declared labels come out
    exactly for the class ids 0 and 1. *)
Theorem voice_label_fallback `{External} (voice_model : VoiceModel) :
  (forall request_json file resp,
     Eager.predict_voice voice_model request_json file = Ok resp ->
     exists arr pred,
       Eager.voice_input request_json file = Ok arr /\
       sk_predict voice_model arr = Ok pred /\
       label_spec pred (prediction resp)) /\
  (forall disk t request_json file st st1 resp,
     Lazy.load_voice_model disk st = (Ok voice_model, st1) ->
     fst (Lazy.predict_voice disk t request_json file st) = Ok resp ->
     exists arr pred,
       fst (Lazy.voice_input request_json file
              (Lazy.logger Lazy.info_processing_voice st1)) = Ok arr /\
       sk_predict voice_model arr = Ok pred /\
       label_spec pred (prediction resp)).
Proof.
  split.
  - intros request_json file resp Hr.
    apply eager_predict_voice_inv in Hr as (arr & label & conf & pd & Harr & _ & Hc & ->).
    apply voice_classify_inv in Hc as (pred & Hpred & -> & _).
    exists arr, pred. auto using default_label_spec.
  - intros disk t request_json file st st1 resp Hload Hr.
    apply lazy_predict_voice_inv in Hr
      as (model & st1' & arr & label & conf & pd & Hload' & Harr & _ & Hc & ->).
    rewrite Hload in Hload'. injection Hload' as <- <-.
    apply voice_classify_inv in Hc as (pred & Hpred & -> & _).
    exists arr, pred. auto using default_label_spec.
Qed.

Lemma voice_label_fallback_witness :
  Eager.predict_voice (H := Sample.libs) (Sample.const_voice 2 None)
    (Ok (Sample.features_body 22)) None =
    Ok {| prediction := "2"; confidence := f_one;
          probability := Some (<["2" := f_one]> ∅);
          inference_time_seconds := None |} /\
  exists arr pred,
    Eager.voice_input (H := Sample.libs) (Ok (Sample.features_body 22)) None = Ok arr /\
    sk_predict (Sample.const_voice 2 None) arr = Ok pred /\
    label_spec pred "2".
Proof.
  split; [reflexivity|].
  exact (proj1 (voice_label_fallback (H := Sample.libs) (Sample.const_voice 2 None))
           (Ok (Sample.features_body 22)) None _ eq_refl).
Defined.

(** ** Undecodable images *)

(** C6 (the claim holds on [src/ml-server/app.py] and is broken by
    [src/app.py]): bytes that are no image, posted to the MRI route with an
    image content type, are answered with status 400 and an invalid-image
    message by the lazy-loading server, but with status 500 by the eager
    one, whose only handler wraps the [ValueError] of the preprocessor like
    any other exception. *)
Theorem undecodable_image_status `{External} (model : MriModel) (file : UploadFile)
    (ct : string) :
  truthy_content_type file = Some ct ->
  split_slash_0 ct = "image" ->
  cv2_imdecode (contents file) = None ->
  Eager.predict_mri model (Some file) =
    Raise (HTTPException 500 "MRI prediction failed: Invalid image") /\
  (forall disk t st st',
     Lazy.load_mri_model disk st = (Ok model, st') ->
     fst (Lazy.predict_mri disk t (Some file) st) =
       Raise (HTTPException 400 "Image processing failed: Invalid image")).
Proof.
  intros Hct Himg Hdec. split.
  - unfold Eager.predict_mri, preprocess_mri_from_bytes.
    rewrite Hct, Himg, Hdec. reflexivity.
  - intros disk t st st' Hload.
    unfold Lazy.predict_mri, preprocess_mri_from_bytes.
    rewrite Hload, Hct, Himg, Hdec. reflexivity.
Qed.

Lemma undecodable_image_status_witness :
  Eager.predict_mri (H := Sample.libs) (Sample.const_mri f_half) (Some Sample.not_png) =
    Raise (HTTPException 500 "MRI prediction failed: Invalid image") /\
  fst (Lazy.predict_mri (H := Sample.libs) Sample.disk_ok f_zero (Some Sample.not_png)
         Lazy.initial) =
    Raise (HTTPException 400 "Image processing failed: Invalid image").
Proof.
  pose proof (undecodable_image_status (H := Sample.libs)
                (Sample.const_mri Sample.f_three_quarters) Sample.not_png "image/png"
                eq_refl eq_refl eq_refl) as [_ Hlazy].
  split.
  - exact (proj1 (undecodable_image_status (H := Sample.libs)
                    (Sample.const_mri f_half) Sample.not_png "image/png"
                    eq_refl eq_refl eq_refl)).
  - exact (Hlazy Sample.disk_ok f_zero Lazy.initial _ eq_refl).
Defined.

(** ** The lazy-loading registry *)

(** C7: once a model handle has been loaded, every later call of the load
    function of its kind returns that same handle and changes nothing,
    neither the cached variables nor the log, whatever is on disk by then;
    so a second call right after a successful one gives what the first
    gave. *)
Theorem load_is_idempotent (disk disk' : Lazy.Artifacts) (st : Lazy.State) :
  (forall m, Lazy.mri_model st = Some m -> Lazy.load_mri_model disk st = (Ok m, st)) /\
  (forall m, Lazy.voice_model st = Some m ->
             Lazy.load_voice_model disk st = (Ok m, st)) /\
  (forall m st', Lazy.load_mri_model disk st = (Ok m, st') ->
     Lazy.mri_model st' = Some m /\ Lazy.load_mri_model disk' st' = (Ok m, st')) /\
  (forall m st', Lazy.load_voice_model disk st = (Ok m, st') ->
     Lazy.voice_model st' = Some m /\ Lazy.load_voice_model disk' st' = (Ok m, st')).
Proof.
  assert (Hmri : forall d s m, Lazy.mri_model s = Some m ->
                               Lazy.load_mri_model d s = (Ok m, s)).
  { intros d s m Hm. unfold Lazy.load_mri_model. rewrite Hm. reflexivity. }
  assert (Hvoice : forall d s m, Lazy.voice_model s = Some m ->
                                 Lazy.load_voice_model d s = (Ok m, s)).
  { intros d s m Hm. unfold Lazy.load_voice_model. rewrite Hm. reflexivity. }
  split; [apply Hmri|]. split; [apply Hvoice|]. split.
  - intros m st' Hload.
    assert (Hm : Lazy.mri_model st' = Some m).
    { unfold Lazy.load_mri_model in Hload.
      destruct (Lazy.mri_model st) as [m0|] eqn:Hm0.
      - injection Hload as <- <-. exact Hm0.
      - destruct (Lazy.mri_path_exists disk); cbn in Hload; [|discriminate].
        destruct (Lazy.tf_load_model disk); [|discriminate].
        injection Hload as <- <-. reflexivity. }
    split; [exact Hm | apply Hmri, Hm].
  - intros m st' Hload.
    assert (Hm : Lazy.voice_model st' = Some m).
    { unfold Lazy.load_voice_model in Hload.
      destruct (Lazy.voice_model st) as [m0|] eqn:Hm0.
      - injection Hload as <- <-. exact Hm0.
      - destruct (Lazy.voice_path_exists disk); cbn in Hload; [|discriminate].
        destruct (Lazy.joblib_load disk); [|discriminate].
        injection Hload as <- <-. reflexivity. }
    split; [exact Hm | apply Hvoice, Hm].
Qed.

Lemma load_is_idempotent_witness :
  let st' := snd (Lazy.load_mri_model Sample.disk_ok Lazy.initial) in
  Lazy.mri_model st' = Some (Sample.const_mri Sample.f_three_quarters) /\
  Lazy.load_mri_model Sample.disk_empty st' =
    (Ok (Sample.const_mri Sample.f_three_quarters), st').
Proof.
  exact (proj1 (proj2 (proj2
           (load_is_idempotent Sample.disk_ok Sample.disk_empty Lazy.initial)))
           _ _ eq_refl).
Defined.

Lemma load_mri_unloaded (disk : Lazy.Artifacts) (st : Lazy.State) :
  Lazy.mri_model st = None ->
  Lazy.mri_load_attempts (snd (Lazy.load_mri_model disk st))
    = S (Lazy.mri_load_attempts st) /\
  match fst (Lazy.load_mri_model disk st) with
  | Ok m => Lazy.mri_model (snd (Lazy.load_mri_model disk st)) = Some m /\
            Lazy.mri_path_exists disk = true /\ Lazy.tf_load_model disk = Ok m
  | Raise _ => Lazy.mri_model (snd (Lazy.load_mri_model disk st)) = None
  end.
Proof.
  intros Hm. unfold Lazy.load_mri_model. rewrite Hm.
  destruct (Lazy.mri_path_exists disk); cbn; [|auto].
  destruct (Lazy.tf_load_model disk); cbn; auto.
Qed.

Lemma load_voice_unloaded (disk : Lazy.Artifacts) (st : Lazy.State) :
  Lazy.voice_model st = None ->
  Lazy.voice_load_attempts (snd (Lazy.load_voice_model disk st))
    = S (Lazy.voice_load_attempts st) /\
  match fst (Lazy.load_voice_model disk st) with
  | Ok m => Lazy.voice_model (snd (Lazy.load_voice_model disk st)) = Some m /\
            Lazy.voice_path_exists disk = true /\ Lazy.joblib_load disk = Ok m
  | Raise _ => Lazy.voice_model (snd (Lazy.load_voice_model disk st)) = None
  end.
Proof.
  intros Hm. unfold Lazy.load_voice_model. rewrite Hm.
  destruct (Lazy.voice_path_exists disk); cbn; [|auto].
  destruct (Lazy.joblib_load disk); cbn; auto.
Qed.

(** C8, as stated, fails: nothing guards the load.  The load functions are
    synchronous and are the first statement of their routes, so the loads of
    requests that are in flight together run one after the other on the
    event loop, in the order composed here.  With an image artifact that
    does not deserialize, two callers in a row both find the model not yet
    loaded and both execute a load. *)
Lemma failed_load_is_repeated :
  let first := Lazy.load_mri_model Sample.disk_corrupt Lazy.initial in
  let second := Lazy.load_mri_model Sample.disk_corrupt (snd first) in
  Lazy.mri_model Lazy.initial = None /\
  Lazy.mri_model (snd first) = None /\
  Lazy.mri_load_attempts (snd second) = 2%nat /\
  ~ (Lazy.mri_load_attempts (snd second) <= 1)%nat.
Proof. cbn. repeat split. lia. Qed.

(** C8 (amended): the load functions take no lock and keep no Loading or
    Failed state; every call that finds the model of its kind not yet loaded
    executes a load of its own.  Of two calls in a row that start from a
    model not yet loaded, the second gets the handle the first one cached
    when that load succeeded, without loading, and loads again when it
    failed. *)
Theorem load_without_guard (disk1 disk2 : Lazy.Artifacts) (st : Lazy.State) :
  (Lazy.mri_model st = None ->
   let first := Lazy.load_mri_model disk1 st in
   let second := Lazy.load_mri_model disk2 (snd first) in
   Lazy.mri_load_attempts (snd first) = S (Lazy.mri_load_attempts st) /\
   match fst first with
   | Ok m => fst second = Ok m /\
             Lazy.mri_load_attempts (snd second) = S (Lazy.mri_load_attempts st)
   | Raise _ => Lazy.mri_model (snd first) = None /\
                Lazy.mri_load_attempts (snd second) = S (S (Lazy.mri_load_attempts st))
   end) /\
  (Lazy.voice_model st = None ->
   let first := Lazy.load_voice_model disk1 st in
   let second := Lazy.load_voice_model disk2 (snd first) in
   Lazy.voice_load_attempts (snd first) = S (Lazy.voice_load_attempts st) /\
   match fst first with
   | Ok m => fst second = Ok m /\
             Lazy.voice_load_attempts (snd second) = S (Lazy.voice_load_attempts st)
   | Raise _ => Lazy.voice_model (snd first) = None /\
                Lazy.voice_load_attempts (snd second)
                  = S (S (Lazy.voice_load_attempts st))
   end).
Proof.
  split; intros Hm; cbn zeta.
  - destruct (load_mri_unloaded disk1 st Hm) as [Hn Hr]. split; [exact Hn|].
    destruct (fst (Lazy.load_mri_model disk1 st)) as [m|e].
    + destruct Hr as (Hm1 & _).
      unfold Lazy.load_mri_model at 1 3. rewrite Hm1. cbn. auto.
    + split; [exact Hr|].
      destruct (load_mri_unloaded disk2 _ Hr) as [Hn2 _]. rewrite Hn2, Hn. reflexivity.
  - destruct (load_voice_unloaded disk1 st Hm) as [Hn Hr]. split; [exact Hn|].
    destruct (fst (Lazy.load_voice_model disk1 st)) as [m|e].
    + destruct Hr as (Hm1 & _).
      unfold Lazy.load_voice_model at 1 3. rewrite Hm1. cbn. auto.
    + split; [exact Hr|].
      destruct (load_voice_unloaded disk2 _ Hr) as [Hn2 _]. rewrite Hn2, Hn. reflexivity.
Qed.

Lemma load_without_guard_witness :
  Lazy.mri_load_attempts
    (snd (Lazy.load_mri_model Sample.disk_ok
            (snd (Lazy.load_mri_model Sample.disk_ok Lazy.initial)))) = 1%nat /\
  Lazy.mri_load_attempts
    (snd (Lazy.load_mri_model Sample.disk_empty
            (snd (Lazy.load_mri_model Sample.disk_empty Lazy.initial)))) = 2%nat.
Proof.
  split.
  - exact (proj2 (proj2 (proj1 (load_without_guard Sample.disk_ok Sample.disk_ok
                                  Lazy.initial) eq_refl))).
  - exact (proj2 (proj2 (proj1 (load_without_guard Sample.disk_empty Sample.disk_empty
                                  Lazy.initial) eq_refl))).
Defined.

(** ** Loading comes before validation *)

(** C9: on the lazy-loading server every request to the MRI route runs the
    model load first.  A load that fails ends the request with the loader's
    own exception, whatever the upload, outside the wrapping of the route;
    and a request without an acceptable image upload, which is rejected with
    status 400, still leaves the model loaded and cached when it was not
    loaded before. *)
Theorem lazy_mri_loads_before_validation `{External} (disk : Lazy.Artifacts)
    (t : float) (file : option UploadFile) (st : Lazy.State) :
  (forall e st', Lazy.load_mri_model disk st = (Raise e, st') ->
     Lazy.predict_mri disk t file st = (Raise e, st')) /\
  (Lazy.mri_model st = None -> Lazy.mri_path_exists disk = false ->
     fst (Lazy.predict_mri disk t file st) =
       Raise (FileNotFoundError ("MRI model not found at " +:+ Lazy.MRI_MODEL_PATH disk))) /\
  (forall e, Lazy.mri_model st = None -> Lazy.mri_path_exists disk = true ->
     Lazy.tf_load_model disk = Raise e ->
     fst (Lazy.predict_mri disk t file st) = Raise e) /\
  (forall m, Lazy.mri_model st = None -> Lazy.mri_path_exists disk = true ->
     Lazy.tf_load_model disk = Ok m ->
     is_image_upload file = false ->
     exists detail,
       Lazy.predict_mri disk t file st =
         (Raise (HTTPException 400 detail), snd (Lazy.load_mri_model disk st)) /\
       Lazy.mri_model (snd (Lazy.predict_mri disk t file st)) = Some m).
Proof.
  split; [|split; [|split]].
  - intros e st' Hload. unfold Lazy.predict_mri. rewrite Hload. reflexivity.
  - intros Hm Hex. unfold Lazy.predict_mri, Lazy.load_mri_model. rewrite Hm, Hex.
    reflexivity.
  - intros e Hm Hex Hl. unfold Lazy.predict_mri, Lazy.load_mri_model.
    rewrite Hm, Hex, Hl. reflexivity.
  - intros m Hm Hex Hl Hfile. unfold Lazy.predict_mri, Lazy.load_mri_model.
    rewrite Hm, Hex, Hl. cbn.
    destruct file as [f|]; cbn in Hfile.
    + destruct (truthy_content_type f) as [ct|].
      * rewrite Hfile. cbn. eexists. split; reflexivity.
      * eexists. split; reflexivity.
    + eexists. split; reflexivity.
Qed.

Lemma lazy_mri_loads_before_validation_witness :
  fst (Lazy.predict_mri (H := Sample.libs) Sample.disk_empty f_zero (Some Sample.png)
         Lazy.initial) =
    Raise (FileNotFoundError "MRI model not found at models/model_bestmri.h5") /\
  exists detail,
    Lazy.predict_mri (H := Sample.libs) Sample.disk_ok f_zero (Some Sample.text_file)
      Lazy.initial =
      (Raise (HTTPException 400 detail),
       snd (Lazy.load_mri_model Sample.disk_ok Lazy.initial)) /\
    Lazy.mri_model
      (snd (Lazy.predict_mri (H := Sample.libs) Sample.disk_ok f_zero
              (Some Sample.text_file) Lazy.initial))
      = Some (Sample.const_mri Sample.f_three_quarters).
Proof.
  split.
  - exact (proj1 (proj2 (lazy_mri_loads_before_validation (H := Sample.libs)
                           Sample.disk_empty f_zero (Some Sample.png) Lazy.initial))
             eq_refl eq_refl).
  - exact (proj2 (proj2 (proj2 (lazy_mri_loads_before_validation (H := Sample.libs)
                           Sample.disk_ok f_zero (Some Sample.text_file) Lazy.initial)))
             _ eq_refl eq_refl eq_refl eq_refl).
Defined.

(** * Further properties of the servers *)

(** ** Which uploads the MRI route accepts *)

Lemma split_slash_0_inv (s : string) :
  s = split_slash_0 s \/ exists rest, s = split_slash_0 s +:+ String "/" rest.
Proof.
  induction s as [|c s IH]; cbn; [left; reflexivity|].
  destruct (Ascii.eqb_spec c "/") as [->|Hc].
  - right. exists s. reflexivity.
  - destruct IH as [IH|[rest IH]].
    + left. f_equal. exact IH.
    + right. exists rest. rewrite IH at 1. reflexivity.
Qed.

(** The MRI route of either server accepts an upload exactly when its
    content type is "image" or begins with "image/"; the test is sensitive
    to case and to surrounding blanks. *)
Theorem image_upload_accepted (file : UploadFile) :
  is_image_upload (Some file) = true <->
  exists ct, content_type file = Some ct /\
             (ct = "image" \/ exists rest, ct = "image/" +:+ rest).
Proof.
  unfold is_image_upload, truthy_content_type. split.
  - destruct (content_type file) as [[|c ct]|]; try discriminate.
    intros Heq. apply String.eqb_eq in Heq. exists (String c ct). split; [reflexivity|].
    destruct (split_slash_0_inv (String c ct)) as [Hs|[rest Hs]]; rewrite Heq in Hs.
    + left. exact Hs.
    + right. exists rest. exact Hs.
  - intros (ct & -> & [->|[rest ->]]); reflexivity.
Qed.

(** ** Statuses of the eager MRI route *)

(** On [src/app.py] the MRI route answers 400 exactly for the uploads it does
    not accept, and then without consulting the codec or the model; for an
    accepted upload it either succeeds or answers 500.  No other exception
    leaves the route. *)
Theorem eager_mri_status `{E : External} (model : MriModel) (file : option UploadFile) :
  (is_image_upload file = false ->
   http_status (Eager.predict_mri model file) = Some 400%nat /\
   forall (E' : External) (model' : MriModel),
     Eager.predict_mri (H := E') model' file = Eager.predict_mri model file) /\
  (is_image_upload file = true ->
   (exists r, Eager.predict_mri model file = Ok r) \/
   (exists e, Eager.predict_mri model file =
                Raise (HTTPException 500 ("MRI prediction failed: " +:+ str_exn e)))).
Proof.
  unfold is_image_upload, Eager.predict_mri. split.
  - intros Hrej. destruct file as [f|]; [|split; reflexivity].
    destruct (truthy_content_type f) as [ct|]; [|split; reflexivity].
    rewrite Hrej. split; reflexivity.
  - intros Hacc. destruct file as [f|]; [|discriminate].
    destruct (truthy_content_type f) as [ct|]; [|discriminate].
    rewrite Hacc. cbn [negb]. unfold try_except.
    match goal with
    | |- context [match ?b with Ok _ => _ | Raise _ => _ end] => destruct b as [r|e]
    end; [left; eauto | right; exists e; reflexivity].
Qed.

Lemma eager_mri_status_witness :
  http_status (Eager.predict_mri (H := Sample.libs) (Sample.const_mri f_half)
                 (Some Sample.text_file)) = Some 400%nat /\
  ((exists r, Eager.predict_mri (H := Sample.libs) (Sample.const_mri f_half)
                (Some Sample.png) = Ok r) \/
   (exists e, Eager.predict_mri (H := Sample.libs) (Sample.const_mri f_half)
                (Some Sample.png) =
                Raise (HTTPException 500 ("MRI prediction failed: " +:+ str_exn e)))).
Proof.
  split.
  - exact (proj1 (proj1 (eager_mri_status (E := Sample.libs) (Sample.const_mri f_half)
                           (Some Sample.text_file)) eq_refl)).
  - exact (proj2 (eager_mri_status (E := Sample.libs) (Sample.const_mri f_half)
                    (Some Sample.png)) eq_refl).
Defined.

(** ** Statuses of the lazy MRI route *)

(** On [src/ml-server/app.py], once the model is loaded and the upload
    accepted, the MRI route succeeds when decoding and prediction succeed,
    answers 400 "Image processing failed: ..." for every [ValueError] raised
    inside its [try] block, by the model's [predict] as much as by the
    preprocessor, and 500 "MRI prediction failed: ..." for any other
    exception. *)
Theorem lazy_mri_status `{External} (disk : Lazy.Artifacts) (t : float)
    (file : UploadFile) (model : MriModel) (st st1 : Lazy.State) :
  Lazy.load_mri_model disk st = (Ok model, st1) ->
  is_image_upload (Some file) = true ->
  match (x ← preprocess_mri_from_bytes (contents file); keras_predict model x) with
  | Ok raw => exists r, fst (Lazy.predict_mri disk t (Some file) st) = Ok r
  | Raise e =>
      fst (Lazy.predict_mri disk t (Some file) st) =
        Raise (HTTPException (if is_ValueError e then 400%nat else 500%nat)
                 ((if is_ValueError e then "Image processing failed: "
                   else "MRI prediction failed: ") +:+ str_exn e))
  end.
Proof.
  intros Hload Hacc. unfold Lazy.predict_mri. rewrite Hload.
  unfold is_image_upload in Hacc.
  destruct (truthy_content_type file) as [ct|]; [|discriminate]. rewrite Hacc. cbn [negb].
  destruct (preprocess_mri_from_bytes (contents file)) as [x|e]; cbn.
  - unfold mri_classify. destruct (keras_predict model x) as [raw|e]; cbn.
    + eauto.
    + destruct (is_ValueError e); reflexivity.
  - destruct (is_ValueError e); reflexivity.
Qed.

Lemma lazy_mri_status_witness :
  fst (Lazy.predict_mri (H := Sample.libs) Sample.disk_ok f_zero (Some Sample.not_png)
         Lazy.initial) =
    Raise (HTTPException 400 "Image processing failed: Invalid image").
Proof.
  exact (lazy_mri_status (H := Sample.libs) Sample.disk_ok f_zero Sample.not_png
           (Sample.const_mri Sample.f_three_quarters) Lazy.initial _ eq_refl eq_refl).
Defined.

(** ** Which exceptions leave a route *)

(** On [src/app.py] a route either returns or raises an [HTTPException]:
    nothing else leaves it. *)
Theorem eager_routes_raise_http_only `{External} (mri_model : MriModel)
    (voice_model : VoiceModel) :
  (forall file e, Eager.predict_mri mri_model file = Raise e ->
                  is_HTTPException e = true) /\
  (forall request_json file e,
     Eager.predict_voice voice_model request_json file = Raise e ->
     is_HTTPException e = true).
Proof.
  split.
  - intros file e. unfold Eager.predict_mri.
    destruct file as [f|]; [|intros [= <-]; reflexivity].
    destruct (truthy_content_type f) as [ct|]; [|intros [= <-]; reflexivity].
    destruct (negb _); [intros [= <-]; reflexivity|].
    unfold try_except.
    match goal with
    | |- context [match ?b with Ok _ => _ | Raise _ => _ end] => destruct b as [r|e0]
    end; [discriminate|]. cbn. intros [= <-]. reflexivity.
  - intros request_json file e. unfold Eager.predict_voice, try_except.
    match goal with
    | |- context [match ?b with Ok _ => _ | Raise _ => _ end] => destruct b as [r|e0]
    end; [discriminate|].
    destruct (is_HTTPException e0) eqn:He0; cbn; intros [= <-]; [exact He0 | reflexivity].
Qed.

Lemma eager_routes_raise_http_only_witness :
  is_HTTPException (HTTPException 500 "MRI prediction failed: Invalid image") = true.
Proof.
  exact (proj1 (eager_routes_raise_http_only (H := Sample.libs) (Sample.const_mri f_half)
                  (Sample.const_voice 1 None))
           (Some Sample.not_png) _ eq_refl).
Defined.

(** On [src/ml-server/app.py] an exception that is no [HTTPException]
    leaves a route only when the model load of that route fails, and it is
    the exception of the load. *)
Theorem lazy_routes_raise_load_failures_only `{External} (disk : Lazy.Artifacts)
    (t : float) (st : Lazy.State) :
  (forall file e,
     fst (Lazy.predict_mri disk t file st) = Raise e ->
     is_HTTPException e = false ->
     Lazy.load_mri_model disk st = (Raise e, snd (Lazy.predict_mri disk t file st))) /\
  (forall request_json file e,
     fst (Lazy.predict_voice disk t request_json file st) = Raise e ->
     is_HTTPException e = false ->
     Lazy.load_voice_model disk st =
       (Raise e, snd (Lazy.predict_voice disk t request_json file st))).
Proof.
  split.
  - intros file e. unfold Lazy.predict_mri.
    destruct (Lazy.load_mri_model disk st) as [[model|e0] st1];
      [|cbn; intros [= <-] _; reflexivity].
    destruct file as [f|]; [|cbn; intros [= <-]; discriminate].
    destruct (match truthy_content_type f with
              | Some ct => negb (String.eqb (split_slash_0 ct) "image")
              | None => true
              end); [cbn; intros [= <-]; discriminate|].
    match goal with
    | |- context [match ?b with Ok _ => _ | Raise _ => _ end] =>
        destruct b as [[label prob]|e0]
    end; [discriminate|].
    destruct (is_ValueError e0); cbn; intros [= <-]; discriminate.
  - intros request_json file e. unfold Lazy.predict_voice.
    destruct (Lazy.load_voice_model disk st) as [[model|e0] st1];
      [|cbn; intros [= <-] _; reflexivity].
    destruct (Lazy.voice_input _ _ _) as [arr st2].
    match goal with
    | |- context [match ?b with Ok _ => _ | Raise _ => _ end] =>
        destruct b as [[[label conf] pd]|e0]
    end; [discriminate|].
    destruct (is_HTTPException e0) eqn:He0; cbn; intros [= <-]; [congruence|discriminate].
Qed.

Lemma lazy_routes_raise_load_failures_only_witness :
  Lazy.load_mri_model Sample.disk_empty Lazy.initial =
    (Raise (FileNotFoundError "MRI model not found at models/model_bestmri.h5"),
     snd (Lazy.predict_mri (H := Sample.libs) Sample.disk_empty f_zero (Some Sample.png)
            Lazy.initial)).
Proof.
  exact (proj1 (lazy_routes_raise_load_failures_only (H := Sample.libs) Sample.disk_empty
                  f_zero Lazy.initial) (Some Sample.png) _ eq_refl eq_refl).
Defined.

(** ** The input of the voice route *)

Section VoiceErrors.
Context `{External}.

Lemma eager_voice_input_error voice_model request_json file e :
  Eager.voice_input request_json file = Raise e ->
  Eager.predict_voice voice_model request_json file =
    if is_HTTPException e then Raise e
    else Raise (HTTPException 500 ("Voice prediction failed: " +:+ str_exn e)).
Proof.
  intros He. unfold Eager.predict_voice. rewrite He. cbn.
  destruct (is_HTTPException e); reflexivity.
Qed.

Lemma lazy_voice_input_error disk t request_json file model st st1 e :
  Lazy.load_voice_model disk st = (Ok model, st1) ->
  fst (Lazy.voice_input request_json file
         (Lazy.logger Lazy.info_processing_voice st1)) = Raise e ->
  fst (Lazy.predict_voice disk t request_json file st) =
    if is_HTTPException e then Raise e
    else Raise (HTTPException 500 ("Voice prediction failed: " +:+ str_exn e)).
Proof.
  intros Hload He. unfold Lazy.predict_voice. rewrite Hload.
  destruct (Lazy.voice_input _ _ _) as [arr st2]. cbn in He. subst arr. cbn.
  destruct (is_HTTPException e); reflexivity.
Qed.
End VoiceErrors.

(** A parsed JSON body without a feature list: a body that is null, a
    boolean or a number is answered with status 500 on both servers, because
    the membership test on it raises; an object without the key "features"
    is answered with status 400; a string is answered with 500 when
    "features" occurs in it and with 400 otherwise; an array that has the
    string "features" among its items is answered with 500. *)
Theorem voice_body_without_features `{External} (voice_model : VoiceModel) (body : json) :
  let status_eager := http_status (Eager.predict_voice voice_model (Ok body) None) in
  let status_lazy disk t st :=
    http_status (fst (Lazy.predict_voice disk t (Ok body) None st)) in
  let loaded disk st := exists st1, Lazy.load_voice_model disk st = (Ok voice_model, st1) in
  (is_scalar_body body = true ->
   status_eager = Some 500%nat /\
   forall disk t st, loaded disk st -> status_lazy disk t st = Some 500%nat) /\
  (forall items, body = JDict items -> dict_get "features" items = None ->
   Eager.predict_voice voice_model (Ok body) None =
     Raise (HTTPException 400 "Invalid voice input") /\
   forall disk t st, loaded disk st ->
     fst (Lazy.predict_voice disk t (Ok body) None st) =
       Raise (HTTPException 400
         "Invalid JSON format. Expected {'features': [22 values]} or direct array")) /\
  (forall s, body = JStr s ->
   let code := if is_substring "features" s then 500%nat else 400%nat in
   status_eager = Some code /\
   forall disk t st, loaded disk st -> status_lazy disk t st = Some code) /\
  (forall l, body = JList l -> existsb (json_eqb_str "features") l = true ->
   status_eager = Some 500%nat /\
   forall disk t st, loaded disk st -> status_lazy disk t st = Some 500%nat).
Proof.
  cbn zeta.
  assert (Hboth : forall e,
    Eager.voice_input (Ok body) None = Raise e ->
    (forall st, fst (Lazy.voice_input (Ok body) None st) = Raise e \/
                (is_HTTPException e = true /\
                 exists d, fst (Lazy.voice_input (Ok body) None st)
                             = Raise (HTTPException 400 d))) ->
    forall code, code = (if is_HTTPException e then 400%nat else 500%nat) ->
    (is_HTTPException e = true -> exists d, e = HTTPException 400 d) ->
    http_status (Eager.predict_voice voice_model (Ok body) None) = Some code /\
    forall disk t st,
      (exists st1, Lazy.load_voice_model disk st = (Ok voice_model, st1)) ->
      http_status (fst (Lazy.predict_voice disk t (Ok body) None st)) = Some code).
  { intros e He Hl code -> Hhttp. split.
    - rewrite (eager_voice_input_error voice_model _ _ e He).
      destruct (is_HTTPException e); [|reflexivity].
      destruct (Hhttp eq_refl) as [d ->]. reflexivity.
    - intros disk t st [st1 Hload].
      destruct (Hl (Lazy.logger Lazy.info_processing_voice st1)) as [Hle|[Hh [d Hle]]].
      + rewrite (lazy_voice_input_error disk t _ _ voice_model st st1 e Hload Hle).
        destruct (is_HTTPException e); [|reflexivity].
        destruct (Hhttp eq_refl) as [d ->]. reflexivity.
      + rewrite (lazy_voice_input_error disk t _ _ voice_model st st1 _ Hload Hle).
        rewrite Hh. reflexivity. }
  split; [|split; [|split]].
  - intros Hscalar.
    destruct body; try discriminate;
      (eapply (Hboth (TypeError "argument is not iterable"));
       [reflexivity | intros; left; reflexivity | reflexivity | discriminate]).
  - intros items -> Hnone. split.
    + rewrite (eager_voice_input_error voice_model _ _
                 (HTTPException 400 "Invalid voice input")); [reflexivity|].
      unfold Eager.voice_input. cbn. rewrite Hnone. reflexivity.
    + intros disk t st [st1 Hload].
      rewrite (lazy_voice_input_error disk t _ _ voice_model st st1
                 (HTTPException 400
                    "Invalid JSON format. Expected {'features': [22 values]} or direct array")
                 Hload); [reflexivity|].
      unfold Lazy.voice_input. cbn. rewrite Hnone. reflexivity.
  - intros s ->. destruct (is_substring "features" s) eqn:Hs.
    + eapply (Hboth (TypeError "string indices must be integers, not 'str'")).
      * unfold Eager.voice_input. cbn. rewrite Hs. reflexivity.
      * intros st. left. unfold Lazy.voice_input. cbn. rewrite Hs. reflexivity.
      * reflexivity.
      * discriminate.
    + eapply (Hboth (HTTPException 400 "Invalid voice input")).
      * unfold Eager.voice_input. cbn. rewrite Hs. reflexivity.
      * intros st. right. split; [reflexivity|]. eexists.
        unfold Lazy.voice_input. cbn. rewrite Hs. reflexivity.
      * reflexivity.
      * eauto.
  - intros l -> Hl.
    eapply (Hboth (TypeError "list indices must be integers or slices, not str")).
    + unfold Eager.voice_input. cbn. rewrite Hl. reflexivity.
    + intros st. left. unfold Lazy.voice_input. cbn. rewrite Hl. reflexivity.
    + reflexivity.
    + discriminate.
Qed.

Lemma voice_body_without_features_witness :
  http_status (Eager.predict_voice (H := Sample.libs) (Sample.const_voice 1 None)
                 (Ok JNull) None) = Some 500%nat /\
  Eager.predict_voice (H := Sample.libs) (Sample.const_voice 1 None)
    (Ok (JDict [("data", Sample.zeros 22)])) None =
    Raise (HTTPException 400 "Invalid voice input").
Proof.
  split.
  - exact (proj1 (proj1 (voice_body_without_features (H := Sample.libs)
                           (Sample.const_voice 1 None) JNull) eq_refl)).
  - exact (proj1 (proj1 (proj2 (voice_body_without_features (H := Sample.libs)
                           (Sample.const_voice 1 None)
                           (JDict [("data", Sample.zeros 22)])))
                    _ eq_refl eq_refl)).
Defined.

(** A request to the voice route without file and without parseable JSON
    body is answered with status 500 by [src/app.py], which reports the
    parse error, and with status 400 by [src/ml-server/app.py]. *)
Theorem voice_body_unparseable `{External} (voice_model : VoiceModel) (e : exn) :
  is_HTTPException e = false ->
  Eager.predict_voice voice_model (Raise e) None =
    Raise (HTTPException 500 ("Voice prediction failed: " +:+ str_exn e)) /\
  forall disk t st st1,
    Lazy.load_voice_model disk st = (Ok voice_model, st1) ->
    fst (Lazy.predict_voice disk t (Raise e) None st) =
      Raise (HTTPException 400
        "No input provided. Send either JSON body {'features': [...]} or upload .npy file").
Proof.
  intros He. split.
  - rewrite (eager_voice_input_error voice_model (Raise e) None e eq_refl), He.
    reflexivity.
  - intros disk t st st1 Hload.
    rewrite (lazy_voice_input_error disk t (Raise e) None voice_model st st1
               (HTTPException 400
                  "No input provided. Send either JSON body {'features': [...]} or upload .npy file")
               Hload eq_refl).
    reflexivity.
Qed.

Lemma voice_body_unparseable_witness :
  Eager.predict_voice (H := Sample.libs) (Sample.const_voice 1 None)
    (Raise (ValueError "Expecting value: line 1 column 1 (char 0)")) None =
    Raise (HTTPException 500
             "Voice prediction failed: Expecting value: line 1 column 1 (char 0)").
Proof.
  exact (proj1 (voice_body_unparseable (H := Sample.libs) (Sample.const_voice 1 None)
                  (ValueError "Expecting value: line 1 column 1 (char 0)") eq_refl)).
Defined.

(** ** Feature lists of any nesting *)

Lemma json_list_ind (P : json -> Prop) :
  (forall v, isinstance_list v = false -> P v) ->
  (forall l, Forall P l -> P (JList l)) ->
  forall v, P v.
Proof.
  intros Hleaf Hlist. fix IH 1. intros v.
  destruct v as [ | | | | |l| ]; try (apply Hleaf; reflexivity).
  apply Hlist. induction l as [|x l IHl]; constructor; [apply IH | exact IHl].
Qed.

Section FeatureLists.
Context `{External}.

Lemma np_array_f32_JList (l : list json) (a : ndarray float) :
  np_array_f32 (JList l) = Ok a <->
  exists subs, Forall2 (fun v s => np_array_f32 v = Ok s) l subs /\ stack subs = Ok a.
Proof.
  cbn [np_array_f32].
  set (items := fix items (l : list json) : result (list (ndarray float)) :=
         match l with
         | [] => Ok []
         | x :: l' => a ← np_array_f32 x; rest ← items l'; Ok (a :: rest)
         end).
  assert (Hitems : forall l subs,
            items l = Ok subs <-> Forall2 (fun v s => np_array_f32 v = Ok s) l subs).
  { clear l a. induction l as [|x l IH]; intros subs; cbn.
    - split; [intros [= <-]; constructor | intros Hf; inversion Hf; reflexivity].
    - destruct (np_array_f32 x) as [s|e] eqn:Hx; cbn.
      + destruct (items l) as [rest|e] eqn:Hl; cbn.
        * split.
          -- intros [= <-]. constructor; [exact Hx | apply IH; reflexivity].
          -- intros Hf. inversion Hf as [|? s' ? rest' Hs Hrest]; subst.
             apply IH in Hrest. congruence.
        * split; [discriminate|]. intros Hf.
          inversion Hf as [|? s' ? rest' Hs Hrest]; subst.
          apply IH in Hrest. discriminate.
      + split; [discriminate|]. intros Hf.
        inversion Hf as [|? s' ? rest' Hs Hrest]; subst. congruence. }
  split.
  - destruct (items l) as [subs|e] eqn:Hl; cbn; [|discriminate].
    intros Hs. exists subs. split; [apply Hitems, Hl | exact Hs].
  - intros (subs & Hf & Hs). apply Hitems in Hf. rewrite Hf. exact Hs.
Qed.

Lemma stack_well_formed (subs : list (ndarray float)) (a : ndarray float) :
  Forall (fun s => dtype s = float32 /\ well_formed s) subs ->
  stack subs = Ok a -> dtype a = float32 /\ well_formed a.
Proof.
  unfold stack. destruct subs as [|s0 subs]; [intros _ [= <-]; split; reflexivity|].
  destruct (forallb _ _) eqn:Hall; [|discriminate]. intros Hwf [= <-].
  split; [reflexivity|]. unfold well_formed, size. cbn [shape data fold_right].
  rewrite forallb_forall in Hall. rewrite List.Forall_forall in Hwf.
  assert (Hlen : forall l : list (ndarray float),
            (forall s, In s l -> In s (s0 :: subs)) ->
            length (concat (map data l)) =
              (length l * fold_right Nat.mul 1 (shape s0))%nat).
  { induction l as [|s l IH]; intros Hsub; [reflexivity|]. cbn [map concat length].
    rewrite length_app, IH by (intros; apply Hsub; right; assumption).
    assert (Hin : In s (s0 :: subs)) by (apply Hsub; left; reflexivity).
    destruct (Hwf s Hin) as [_ Hs]. unfold well_formed, size in Hs. rewrite Hs.
    specialize (Hall s Hin). apply bool_decide_eq_true_1 in Hall. rewrite Hall. lia. }
  apply (Hlen (s0 :: subs)). auto.
Qed.

Lemma np_array_f32_well_formed (v : json) :
  forall a, np_array_f32 v = Ok a -> dtype a = float32 /\ well_formed a.
Proof.
  induction v as [v Hv|l IH] using json_list_ind; intros a Ha.
  - destruct v; try discriminate; cbn in Ha;
      destruct (float32_of_item _) as [x|e]; try discriminate;
      injection Ha as <-; split; reflexivity.
  - apply np_array_f32_JList in Ha as (subs & Hf & Hs).
    apply (stack_well_formed subs a); [|exact Hs].
    clear Hs. induction Hf as [|v s l subs Hv _ IHf]; constructor.
    + inversion IH; subst. auto.
    + inversion IH; subst. auto.
Qed.
End FeatureLists.

(** Whatever JSON value is given as feature list, if it converts at all the
    result is a well-formed float32 array of shape (1, N), where N is the
    number of values in the list and all the lists nested in it: in JSON
    mode the count that is compared with 22 always exists and is that
    number. *)
Theorem preprocess_voice_from_list_shape `{External} (features : json)
    (arr : ndarray float) :
  preprocess_voice_from_list features = Ok arr ->
  dtype arr = float32 /\ shape arr = [1%nat; length (data arr)] /\
  well_formed arr /\ shape_1 arr = Ok (length (data arr)).
Proof.
  unfold preprocess_voice_from_list. intros Ha.
  destruct (np_array_f32 features) as [a|e] eqn:Hnp; cbn in Ha; [|discriminate].
  injection Ha as <-.
  destruct (np_array_f32_well_formed features a Hnp) as [Hd Hwf].
  unfold well_formed in Hwf. unfold reshape_1_m1, shape_1, well_formed. cbn.
  rewrite <- Hwf. unfold size. cbn. rewrite Nat.mul_1_r. auto.
Qed.

Lemma preprocess_voice_from_list_shape_witness :
  shape_1 (mk_ndarray float32 [1%nat; 3%nat] [f_zero; f_one; f_half]) = Ok 3%nat.
Proof.
  exact (proj2 (proj2 (proj2
    (preprocess_voice_from_list_shape (H := Sample.libs)
       (JList [JList [JFloat f_zero]; JList [JFloat f_one]; JList [JFloat f_half]])
       (mk_ndarray float32 [1%nat; 3%nat] [f_zero; f_one; f_half]) eq_refl)))).
Defined.

Section NestedRows.
Context `{External}.

Lemma stack_same_shape (subs : list (ndarray float)) (sh : list nat) :
  subs <> [] -> Forall (fun s => shape s = sh) subs ->
  stack subs = Ok (mk_ndarray float32 (length subs :: sh) (concat (map data subs))).
Proof.
  intros Hne Hsh. unfold stack. destruct subs as [|s0 subs]; [contradiction|].
  rewrite List.Forall_forall in Hsh.
  replace (forallb _ _) with true.
  - rewrite (Hsh s0) by (left; reflexivity). reflexivity.
  - symmetry. apply forallb_forall. intros s Hs. apply bool_decide_eq_true_2.
    rewrite (Hsh s Hs), (Hsh s0) by (left; reflexivity). reflexivity.
Qed.

Lemma np_array_f32_row (row : list json) :
  row <> [] -> Forall is_feature row ->
  exists xs, np_array_f32 (JList row) = Ok (mk_ndarray float32 [length row] xs) /\
             Forall2 (fun v x => float32_of_item v = Ok x) row xs.
Proof.
  intros Hne Hrow.
  assert (Hitems : exists xs,
            Forall2 (fun v s => np_array_f32 v = Ok s) row
                    (map (fun x => mk_ndarray float32 [] [x]) xs) /\
            Forall2 (fun v x => float32_of_item v = Ok x) row xs).
  { clear Hne. induction Hrow as [|v row [Hv [x Hx]] _ (xs & IH1 & IH2)].
    - exists []. split; constructor.
    - exists (x :: xs). split; constructor; auto using np_array_f32_item. }
  destruct Hitems as (xs & Hsubs & Hxs). exists xs. split; [|exact Hxs].
  apply np_array_f32_JList. eexists. split; [exact Hsubs|].
  rewrite stack_same_shape with (sh := []).
  - rewrite length_map, <- (Forall2_length _ _ _ Hxs). f_equal. f_equal.
    clear. induction xs as [|x xs IH]; cbn; [reflexivity | f_equal; exact IH].
  - destruct Hxs; [contradiction | discriminate].
  - apply List.Forall_forall. intros s Hs. apply in_map_iff in Hs as (x & <- & _).
    reflexivity.
Qed.

Lemma np_array_f32_rows (rows : list (list json)) (c : nat) :
  rows <> [] -> c <> 0%nat ->
  Forall (fun row => length row = c /\ Forall is_feature row) rows ->
  exists xs, np_array_f32 (JList (map JList rows)) =
               Ok (mk_ndarray float32 [length rows; c] xs) /\
             Forall2 (fun v x => float32_of_item v = Ok x) (concat rows) xs.
Proof.
  intros Hne Hc Hrows.
  assert (Hsubs : exists subs,
            Forall2 (fun v s => np_array_f32 v = Ok s) (map JList rows) subs /\
            Forall (fun s => shape s = [c]) subs /\
            Forall2 (fun v x => float32_of_item v = Ok x)
                    (concat rows) (concat (map data subs))).
  { clear Hne. induction Hrows as [|row rows [Hlen Hrow] _ (subs & IH1 & IH2 & IH3)].
    - exists []. repeat split; constructor.
    - destruct (np_array_f32_row row) as (xs & Hxs & Hvals); [|exact Hrow|].
      { intros ->. cbn in Hlen. congruence. }
      exists (mk_ndarray float32 [length row] xs :: subs). split; [|split].
      + constructor; assumption.
      + constructor; [cbn; congruence | exact IH2].
      + cbn. apply Forall2_app; assumption. }
  destruct Hsubs as (subs & Hf & Hsh & Hvals). exists (concat (map data subs)).
  split; [|exact Hvals]. apply np_array_f32_JList. exists subs. split; [exact Hf|].
  rewrite (stack_same_shape subs [c]); [| |exact Hsh].
  - rewrite <- (Forall2_length _ _ _ Hf), length_map. reflexivity.
  - intros ->. inversion Hf as [Hnil|]. destruct rows; [contradiction|discriminate].
Qed.
End NestedRows.

(** A feature list given as rows is flattened, not rejected: a JSON array of
    r arrays of c numbers each becomes one row of r*c features, in row
    order; so two rows of eleven numbers pass the count check like a flat
    list of 22 and are classified. *)
Theorem nested_feature_rows_are_flattened `{External} (rows : list (list json))
    (c : nat) :
  rows <> [] -> c <> 0%nat ->
  Forall (fun row => length row = c /\ Forall is_feature row) rows ->
  exists xs,
    preprocess_voice_from_list (JList (map JList rows)) =
      Ok (mk_ndarray float32 [1%nat; (length rows * c)%nat] xs) /\
    Forall2 (fun v x => float32_of_item v = Ok x) (concat rows) xs /\
    forall (voice_model : VoiceModel) items label conf pd,
      dict_get "features" items = Some (JList (map JList rows)) ->
      (length rows * c)%nat = 22%nat ->
      voice_classify voice_model (hasattr_predict_proba voice_model)
        (mk_ndarray float32 [1%nat; 22%nat] xs) = Ok (label, conf, pd) ->
      Eager.predict_voice voice_model (Ok (JDict items)) None =
        Ok {| prediction := label; confidence := conf;
              probability := Some pd; inference_time_seconds := None |}.
Proof.
  intros Hne Hc Hrows.
  destruct (np_array_f32_rows rows c Hne Hc Hrows) as (xs & Hxs & Hvals).
  assert (Hpre : preprocess_voice_from_list (JList (map JList rows)) =
                   Ok (mk_ndarray float32 [1%nat; (length rows * c)%nat] xs)).
  { unfold preprocess_voice_from_list. rewrite Hxs. cbn.
    unfold reshape_1_m1, size. cbn. rewrite Nat.mul_1_r. reflexivity. }
  exists xs. split; [exact Hpre|]. split; [exact Hvals|].
  intros voice_model items label conf pd Hitems H22 Hclass.
  unfold Eager.predict_voice.
  rewrite (eager_voice_input_features items _ Hitems), Hpre, H22. cbn.
  unfold Eager._voice_has_proba. rewrite Hclass. reflexivity.
Qed.

Lemma nested_feature_rows_are_flattened_witness :
  Eager.predict_voice (H := Sample.libs) (Sample.const_voice 0 None)
    (Ok (JDict [("features",
                 JList [JList (repeat (JFloat f_zero) 11);
                        JList (repeat (JFloat f_one) 11)])])) None =
    Ok {| prediction := "healthy"; confidence := f_one;
          probability := Some (<["healthy" := f_one]> ∅);
          inference_time_seconds := None |}.
Proof.
  assert (Hrows : Forall (fun row => length row = 11%nat /\
                                     Forall (is_feature (H := Sample.libs)) row)
                    [repeat (JFloat f_zero) 11; repeat (JFloat f_one) 11]).
  { repeat constructor; eexists; reflexivity. }
  destruct (nested_feature_rows_are_flattened (H := Sample.libs)
              [repeat (JFloat f_zero) 11; repeat (JFloat f_one) 11] 11%nat
              ltac:(discriminate) ltac:(discriminate) Hrows)
    as (xs & Hpre & _ & Hroute).
  injection Hpre as <-.
  exact (Hroute (Sample.const_voice 0 None)
           [("features", JList [JList (repeat (JFloat f_zero) 11);
                                JList (repeat (JFloat f_one) 11)])]
           "healthy" f_one (<["healthy" := f_one]> ∅) eq_refl eq_refl eq_refl).
Defined.

(** ** Uploaded arrays of any dimension *)

(** The array that [preprocess_voice_from_npy_bytes] returns holds the casts
    of the parsed elements in their order, whatever the dimension: an array
    of one or two dimensions comes out as one row of all its elements, an
    array of no or of three and more dimensions comes out with its shape
    unchanged; the result never has exactly one dimension. *)
Theorem npy_output_shape `{External} (bs : list byte) (arr : ndarray npscalar)
    (xs : list float) :
  np_load bs = Ok arr ->
  mapM astype_float32 (data arr) = Ok xs ->
  exists out,
    preprocess_voice_from_npy_bytes bs = Ok out /\
    dtype out = float32 /\ data out = xs /\
    shape out = (if (ndim arr =? 1)%nat || (ndim arr =? 2)%nat
                 then [1%nat; size arr] else shape arr) /\
    ndim out <> 1%nat.
Proof.
  intros Hload Hcast. unfold preprocess_voice_from_npy_bytes.
  rewrite Hload, Hcast. cbn. unfold ndim, reshape_1_m1, size. cbn.
  destruct (shape arr) as [|a [|b [|c rest]]] eqn:Hs; cbn.
  - eexists. repeat split; cbn; try reflexivity. discriminate.
  - eexists. repeat split; cbn; try reflexivity. discriminate.
  - destruct (Nat.eqb_spec a 1) as [->|Ha]; cbn.
    + eexists. repeat split; cbn; try reflexivity; [|discriminate].
      f_equal. f_equal. lia.
    + eexists. repeat split; cbn; try reflexivity. discriminate.
  - eexists. repeat split; cbn; try reflexivity. discriminate.
Qed.

Lemma npy_output_shape_witness :
  exists out,
    preprocess_voice_from_npy_bytes (H := Sample.libs) (x02 :: x01 :: x03 :: repeat x07 3)
      = Ok out /\
    shape out = [1%nat; 3%nat] /\ ndim out <> 1%nat.
Proof.
  destruct (npy_output_shape (H := Sample.libs) (x02 :: x01 :: x03 :: repeat x07 3)
              (mk_ndarray uint8 [1%nat; 3%nat] (repeat 7 3)) (repeat (u8_to_f32 7) 3)
              eq_refl eq_refl) as (out & Hout & _ & _ & Hshape & Hndim).
  exists out. auto.
Defined.

(** An upload that [np.load] cannot read is answered with status 500 and the
    message "Voice prediction failed: Could not load .npy: ..." by both
    servers: the [ValueError] of the preprocessor is not turned into a 400
    on the voice route. *)
Theorem npy_upload_unreadable `{External} (voice_model : VoiceModel) (file : UploadFile)
    (body : result json) (e : exn) :
  np_load (contents file) = Raise e ->
  Eager.predict_voice voice_model body (Some file) =
    Raise (HTTPException 500
             ("Voice prediction failed: Could not load .npy: " +:+ str_exn e)) /\
  forall disk t st st1,
    Lazy.load_voice_model disk st = (Ok voice_model, st1) ->
    fst (Lazy.predict_voice disk t body (Some file) st) =
      Raise (HTTPException 500
               ("Voice prediction failed: Could not load .npy: " +:+ str_exn e)).
Proof.
  intros Hload.
  assert (Hpre : preprocess_voice_from_npy_bytes (contents file) =
                   Raise (ValueError ("Could not load .npy: " +:+ str_exn e))).
  { unfold preprocess_voice_from_npy_bytes. rewrite Hload. reflexivity. }
  split.
  - rewrite (eager_voice_input_error voice_model body (Some file) _ Hpre). reflexivity.
  - intros disk t st st1 Hl.
    rewrite (lazy_voice_input_error disk t body (Some file) voice_model st st1 _ Hl Hpre).
    reflexivity.
Qed.

Lemma npy_upload_unreadable_witness :
  Eager.predict_voice (H := Sample.libs) (Sample.const_voice 1 None)
    (Ok JNull) (Some Sample.not_png) =
    Raise (HTTPException 500
      "Voice prediction failed: Could not load .npy: Failed to interpret file as a pickle").
Proof.
  exact (proj1 (npy_upload_unreadable (H := Sample.libs) (Sample.const_voice 1 None)
                  Sample.not_png (Ok JNull) _ eq_refl)).
Defined.

(** The count check of the voice route reads the second axis of the
    preprocessed array.  An uploaded array of no dimension has none and is
    answered with status 500; an uploaded array of three or more dimensions
    is checked on its second axis alone, so with a second axis of 22 it
    reaches the model unchanged, however many elements it holds. *)
Theorem npy_upload_other_dimensions `{External} (voice_model : VoiceModel)
    (file : UploadFile) (body : result json) (arr : ndarray npscalar)
    (xs : list float) :
  np_load (contents file) = Ok arr ->
  mapM astype_float32 (data arr) = Ok xs ->
  (shape arr = [] ->
   Eager.predict_voice voice_model body (Some file) =
     Raise (HTTPException 500 "Voice prediction failed: tuple index out of range")) /\
  (forall a c rest label conf pd,
     shape arr = a :: 22%nat :: c :: rest ->
     voice_classify voice_model (hasattr_predict_proba voice_model)
       (mk_ndarray float32 (shape arr) xs) = Ok (label, conf, pd) ->
     Eager.predict_voice voice_model body (Some file) =
       Ok {| prediction := label; confidence := conf;
             probability := Some pd; inference_time_seconds := None |}) /\
  (forall a n c rest,
     shape arr = a :: n :: c :: rest -> n <> 22%nat ->
     Eager.predict_voice voice_model body (Some file) =
       Raise (HTTPException 400 ("Expected 22 features, got " +:+ str_nat n))).
Proof.
  intros Hload Hcast.
  assert (Hpre : forall sh, shape arr = sh -> length sh <> 1%nat -> length sh <> 2%nat ->
            Eager.voice_input body (Some file) = Ok (mk_ndarray float32 sh xs)).
  { intros sh Hsh H1 H2. unfold Eager.voice_input, preprocess_voice_from_npy_bytes.
    rewrite Hload, Hcast. cbn. unfold ndim. cbn. rewrite Hsh.
    destruct (Nat.eqb_spec (length sh) 1); [contradiction|].
    destruct (Nat.eqb_spec (length sh) 2); [contradiction|]. reflexivity. }
  split; [|split].
  - intros Hs. unfold Eager.predict_voice.
    rewrite (Hpre [] Hs) by discriminate. reflexivity.
  - intros a c rest label conf pd Hs Hclass. unfold Eager.predict_voice.
    rewrite (Hpre _ Hs) by (cbn; lia). cbn. rewrite Hs in Hclass.
    unfold Eager._voice_has_proba. rewrite Hclass. reflexivity.
  - intros a n c rest Hs Hn.
    apply (eager_voice_count_mismatch voice_model body (Some file)
             (mk_ndarray float32 (a :: n :: c :: rest) xs) n);
      [apply (Hpre _ Hs); cbn; lia | reflexivity | exact Hn].
Qed.

Lemma npy_upload_other_dimensions_witness :
  Eager.predict_voice (H := Sample.libs_nd) (Sample.const_voice 1 None) (Ok JNull)
    (Some (Sample.npy [x07])) =
    Raise (HTTPException 500 "Voice prediction failed: tuple index out of range") /\
  Eager.predict_voice (H := Sample.libs_nd) (Sample.const_voice 1 None) (Ok JNull)
    (Some (Sample.npy (repeat x07 44))) =
    Ok {| prediction := "parkinsons"; confidence := f_one;
          probability := Some (<["parkinsons" := f_one]> ∅);
          inference_time_seconds := None |}.
Proof.
  split.
  - exact (proj1 (npy_upload_other_dimensions (H := Sample.libs_nd)
                    (Sample.const_voice 1 None) (Sample.npy [x07]) (Ok JNull)
                    (mk_ndarray uint8 [] [7]) [u8_to_f32 7] eq_refl eq_refl) eq_refl).
  - exact (proj1 (proj2 (npy_upload_other_dimensions (H := Sample.libs_nd)
                    (Sample.const_voice 1 None) (Sample.npy (repeat x07 44)) (Ok JNull)
                    (mk_ndarray uint8 [1%nat; 22%nat; 2%nat] (repeat 7 44))
                    (repeat (u8_to_f32 7) 44) eq_refl eq_refl))
             1%nat 2%nat [] "parkinsons" f_one (<["parkinsons" := f_one]> ∅)
             eq_refl eq_refl).
Defined.

(** ** Classes without a label *)

Lemma fill_prob_dict_unknown pre c p post d :
  Forall (fun cp => is_Some (VOICE_LABELS !! fst cp)) pre ->
  VOICE_LABELS !! c = None ->
  fill_prob_dict (pre ++ (c, p) :: post) d = Raise (KeyError (str_Z c)).
Proof.
  intros Hpre Hc. revert d. induction Hpre as [|[c0 p0] pre [l Hl] _ IH]; intros d; cbn.
  - rewrite Hc. reflexivity.
  - cbn in Hl. rewrite Hl. apply IH.
Qed.

Lemma combine_split_at {A B} (pre : list A) (c : A) (post : list A) (k : list B) :
  (length pre < length k)%nat ->
  exists pre' p post',
    combine (pre ++ c :: post) k = pre' ++ (c, p) :: post' /\ map fst pre' = pre.
Proof.
  revert k. induction pre as [|a pre IH]; intros [|b k] Hlen; cbn in *; try lia.
  - exists [], b, (combine post k). split; reflexivity.
  - destruct (IH k ltac:(lia)) as (pre' & p & post' & Heq & Hfst).
    exists ((a, b) :: pre'), p, post'. cbn. rewrite Heq, Hfst. split; reflexivity.
Qed.

(** When the model supports probability estimation and one of its classes
    has no label in the dictionary, every prediction fails with status 500
    and the class id as message, also when the class predicted for the
    request is 0 or 1. *)
Theorem voice_class_without_label `{External} (voice_model : VoiceModel)
    (request_json : result json) (file : option UploadFile) (arr : ndarray float)
    (pred : Z) predict_proba (probs : list float) (pre post : list Z) (c : Z) :
  Eager.voice_input request_json file = Ok arr ->
  shape arr !! 1%nat = Some 22%nat ->
  sk_predict voice_model arr = Ok pred ->
  sk_predict_proba voice_model = Some predict_proba ->
  predict_proba arr = Ok probs ->
  classes_ voice_model = pre ++ c :: post ->
  Forall (fun c' => c' = 0 \/ c' = 1) pre -> c <> 0 -> c <> 1 ->
  (length pre < length probs)%nat ->
  Eager.predict_voice voice_model request_json file =
    Raise (HTTPException 500 ("Voice prediction failed: " +:+ str_Z c)) /\
  forall disk t st st1,
    Lazy.consistent st ->
    Lazy.load_voice_model disk st = (Ok voice_model, st1) ->
    fst (Lazy.voice_input request_json file
           (Lazy.logger Lazy.info_processing_voice st1)) = Ok arr ->
    fst (Lazy.predict_voice disk t request_json file st) =
      Raise (HTTPException 500 ("Voice prediction failed: " +:+ str_Z c)).
Proof.
  intros Harr H22 Hpred Hproba Hprobs Hclasses Hpre Hc0 Hc1 Hlen.
  assert (Hclass : voice_classify voice_model true arr = Raise (KeyError (str_Z c))).
  { unfold voice_classify. rewrite Hpred. cbn. rewrite Hproba, Hprobs. cbn.
    rewrite Hclasses.
    destruct (combine_split_at pre c post probs Hlen) as (pre' & p & post' & -> & Hfst).
    rewrite fill_prob_dict_unknown; [reflexivity| |].
    - subst pre. clear -Hpre. induction pre' as [|[c' p'] pre' IH]; constructor.
      + inversion Hpre as [|? ? Hc' _]; subst. cbn.
        destruct Hc' as [->| ->]; eexists; reflexivity.
      + apply IH. inversion Hpre; assumption.
    - destruct (VOICE_LABELS !! c) as [l|] eqn:Hl; [|reflexivity].
      apply VOICE_LABELS_lookup in Hl as [[-> _]|[-> _]]; contradiction. }
  assert (Hflag : hasattr_predict_proba voice_model = true).
  { unfold hasattr_predict_proba. rewrite Hproba. reflexivity. }
  split.
  - unfold Eager.predict_voice. rewrite Harr. cbn. unfold shape_1. rewrite H22. cbn.
    unfold Eager._voice_has_proba. rewrite Hflag, Hclass. reflexivity.
  - intros disk t st st1 Hcons Hload Hin.
    pose proof (lazy_load_voice_flag disk st voice_model st1 Hcons Hload) as Hf.
    unfold Lazy.predict_voice. rewrite Hload.
    destruct (Lazy.voice_input _ _ _) as [a st2] eqn:Hvi. cbn in Hin. subst a.
    assert (Hflag2 : Lazy._voice_has_proba st2 = true).
    { rewrite <- Hflag, <- Hf. unfold Lazy.voice_input in Hvi.
      destruct file; [|destruct request_json]; injection Hvi as _ <-; reflexivity. }
    cbn. unfold shape_1. rewrite H22. cbn. rewrite Hflag2, Hclass. reflexivity.
Qed.

Lemma voice_class_without_label_witness :
  Eager.predict_voice (H := Sample.libs) Sample.three_class_voice
    (Ok (Sample.features_body 22)) None =
    Raise (HTTPException 500 "Voice prediction failed: 2").
Proof.
  exact (proj1 (voice_class_without_label (H := Sample.libs) Sample.three_class_voice
                  (Ok (Sample.features_body 22)) None
                  (mk_ndarray float32 [1%nat; 22%nat] (repeat f_zero 22))
                  0 (fun _ => Ok [f_half; Sample.f_quarter; Sample.f_quarter])
                  [f_half; Sample.f_quarter; Sample.f_quarter] [0; 1] [] 2
                  eq_refl eq_refl eq_refl eq_refl eq_refl eq_refl
                  ltac:(constructor; [left; reflexivity
                                     | constructor; [right; reflexivity | constructor]])
                  ltac:(discriminate) ltac:(discriminate)
                  ltac:(cbn; lia))).
Defined.

(** ** The two servers side by side *)

(** With the same image model, the two servers succeed on the same MRI
    requests and answer the same label and confidence; the lazy-loading
    server adds the inference time. *)
Theorem mri_servers_agree `{External} (disk : Lazy.Artifacts) (t : float)
    (file : option UploadFile) (model : MriModel) (st st1 : Lazy.State) :
  Lazy.load_mri_model disk st = (Ok model, st1) ->
  (forall r, Eager.predict_mri model file = Ok r ->
             fst (Lazy.predict_mri disk t file st) = Ok (timed t r)) /\
  (forall r', fst (Lazy.predict_mri disk t file st) = Ok r' ->
              exists r, Eager.predict_mri model file = Ok r /\ r' = timed t r).
Proof.
  intros Hload. unfold Eager.predict_mri, Lazy.predict_mri. rewrite Hload.
  destruct file as [f|]; [|split; intros ? [=]].
  destruct (truthy_content_type f) as [ct|]; [|split; intros ? [=]].
  destruct (String.eqb (split_slash_0 ct) "image"); cbn [negb];
    [|split; intros ? [=]].
  unfold try_except.
  destruct (preprocess_mri_from_bytes (contents f)) as [x|e]; cbn.
  - destruct (mri_classify model x) as [[label prob]|e]; cbn.
    + split; [intros r [= <-]; reflexivity|]. intros r' [= <-]. eauto.
    + split; [intros ? [=]|]. destruct (is_ValueError e); intros ? [=].
  - split; [intros ? [=]|]. destruct (is_ValueError e); intros ? [=].
Qed.

Lemma mri_servers_agree_witness :
  fst (Lazy.predict_mri (H := Sample.libs) Sample.disk_ok f_zero (Some Sample.png)
         Lazy.initial) =
    Ok {| prediction := "parkinsons"; confidence := Sample.f_three_quarters;
          probability := None; inference_time_seconds := Some f_zero |}.
Proof.
  exact (proj1 (mri_servers_agree (H := Sample.libs) Sample.disk_ok f_zero
                  (Some Sample.png) (Sample.const_mri Sample.f_three_quarters)
                  Lazy.initial _ eq_refl)
           {| prediction := "parkinsons"; confidence := Sample.f_three_quarters;
              probability := None; inference_time_seconds := None |} eq_refl).
Defined.

Section VoiceAgreement.
Context `{External}.

Lemma lazy_voice_input_flag request_json file st :
  Lazy._voice_has_proba (snd (Lazy.voice_input request_json file st))
    = Lazy._voice_has_proba st.
Proof.
  unfold Lazy.voice_input. destruct file; [|destruct request_json]; reflexivity.
Qed.

Lemma voice_input_agree request_json file st :
  (file = None -> exists body, request_json = Ok body) ->
  fst (Lazy.voice_input request_json file st) = Eager.voice_input request_json file \/
  (Eager.voice_input request_json file = Raise (HTTPException 400 "Invalid voice input") /\
   fst (Lazy.voice_input request_json file st) =
     Raise (HTTPException 400
       "Invalid JSON format. Expected {'features': [22 values]} or direct array")).
Proof.
  intros Hbody. unfold Lazy.voice_input, Eager.voice_input.
  destruct file as [f|]; [left; reflexivity|].
  destruct (Hbody eq_refl) as [body ->]. cbn.
  destruct (features_in body) as [[|]|e]; cbn; [left; reflexivity| |left; reflexivity].
  destruct (isinstance_list body); [left; reflexivity|right; split; reflexivity].
Qed.

(** What either server does once the input array is known. *)
Lemma eager_predict_voice_after_input voice_model request_json file :
  Eager.predict_voice voice_model request_json file =
    match Eager.voice_input request_json file with
    | Raise e => if is_HTTPException e then Raise e
                 else Raise (HTTPException 500 ("Voice prediction failed: " +:+ str_exn e))
    | Ok arr =>
        match shape arr !! 1%nat with
        | None => Raise (HTTPException 500 "Voice prediction failed: tuple index out of range")
        | Some n =>
            if (n =? 22)%nat then
              match voice_classify voice_model (hasattr_predict_proba voice_model) arr with
              | Ok (label, conf, pd) =>
                  Ok {| prediction := label; confidence := conf;
                        probability := Some pd; inference_time_seconds := None |}
              | Raise e =>
                  if is_HTTPException e then Raise e
                  else Raise (HTTPException 500
                                ("Voice prediction failed: " +:+ str_exn e))
              end
            else Raise (HTTPException 400 ("Expected 22 features, got " +:+ str_nat n))
        end
    end.
Proof.
  unfold Eager.predict_voice, try_except, Eager._voice_has_proba, shape_1.
  destruct (Eager.voice_input request_json file) as [arr|e]; cbn;
    [|destruct (is_HTTPException e); reflexivity].
  destruct (shape arr !! 1%nat) as [n|]; cbn; [|reflexivity].
  destruct (n =? 22)%nat; cbn; [|reflexivity].
  destruct (voice_classify _ _ arr) as [[[label conf] pd]|e]; cbn; [reflexivity|].
  destruct (is_HTTPException e); reflexivity.
Qed.

Lemma lazy_predict_voice_after_input disk t request_json file model st st1 :
  Lazy.load_voice_model disk st = (Ok model, st1) ->
  fst (Lazy.predict_voice disk t request_json file st) =
    match fst (Lazy.voice_input request_json file
                 (Lazy.logger Lazy.info_processing_voice st1)) with
    | Raise e => if is_HTTPException e then Raise e
                 else Raise (HTTPException 500 ("Voice prediction failed: " +:+ str_exn e))
    | Ok arr =>
        match shape arr !! 1%nat with
        | None => Raise (HTTPException 500 "Voice prediction failed: tuple index out of range")
        | Some n =>
            if (n =? 22)%nat then
              match voice_classify model (Lazy._voice_has_proba st1) arr with
              | Ok (label, conf, pd) =>
                  Ok {| prediction := label; confidence := conf;
                        probability := Some pd; inference_time_seconds := Some t |}
              | Raise e =>
                  if is_HTTPException e then Raise e
                  else Raise (HTTPException 500
                                ("Voice prediction failed: " +:+ str_exn e))
              end
            else Raise (HTTPException 400
                          ("Expected 22 features, got " +:+ str_nat n +:+
                           ". Please provide all required voice measurements."))
        end
    end.
Proof.
  intros Hload. unfold Lazy.predict_voice. rewrite Hload.
  pose proof (lazy_voice_input_flag request_json file
                (Lazy.logger Lazy.info_processing_voice st1)) as Hflag.
  destruct (Lazy.voice_input _ _ _) as [arr st2]. cbn in Hflag |- *. rewrite Hflag.
  unfold shape_1.
  destruct arr as [arr|e]; cbn; [|destruct (is_HTTPException e); reflexivity].
  destruct (shape arr !! 1%nat) as [n|]; cbn; [|reflexivity].
  destruct (n =? 22)%nat; cbn; [|reflexivity].
  destruct (voice_classify _ _ arr) as [[[label conf] pd]|e]; cbn; [reflexivity|].
  destruct (is_HTTPException e); reflexivity.
Qed.
End VoiceAgreement.

(** With the same tabular model, the two servers succeed on the same voice
    requests and answer the same label, confidence and probabilities, the
    lazy-loading server adding the inference time; and whenever a file or a
    parseable JSON body is sent, a request that fails gets the same status
    code from both. *)
Theorem voice_servers_agree `{External} (disk : Lazy.Artifacts) (t : float)
    (request_json : result json) (file : option UploadFile) (model : VoiceModel)
    (st st1 : Lazy.State) :
  Lazy.consistent st ->
  Lazy.load_voice_model disk st = (Ok model, st1) ->
  (forall r, Eager.predict_voice model request_json file = Ok r ->
             fst (Lazy.predict_voice disk t request_json file st) = Ok (timed t r)) /\
  (forall r', fst (Lazy.predict_voice disk t request_json file st) = Ok r' ->
              exists r, Eager.predict_voice model request_json file = Ok r /\
                        r' = timed t r) /\
  ((file = None -> exists body, request_json = Ok body) ->
   http_status (fst (Lazy.predict_voice disk t request_json file st)) =
     http_status (Eager.predict_voice model request_json file)).
Proof.
  intros Hcons Hload.
  rewrite (lazy_predict_voice_after_input disk t request_json file model st st1 Hload).
  rewrite (eager_predict_voice_after_input model request_json file).
  rewrite (lazy_load_voice_flag disk st model st1 Hcons Hload).
  set (sti := Lazy.logger Lazy.info_processing_voice st1).
  assert (Hcases :
    fst (Lazy.voice_input request_json file sti) = Eager.voice_input request_json file \/
    (exists e d, Eager.voice_input request_json file = Raise e /\
                 fst (Lazy.voice_input request_json file sti)
                   = Raise (HTTPException 400 d) /\
                 ((file = None -> exists body, request_json = Ok body) ->
                  e = HTTPException 400 "Invalid voice input"))).
  { destruct file as [f|].
    - left. reflexivity.
    - destruct request_json as [body|e].
      + destruct (voice_input_agree (Ok body) None sti) as [Heq|[He Hl]]; [eauto|auto|].
        right. do 2 eexists. split; [exact He|]. split; [exact Hl|]. auto.
      + right. exists e. eexists. split; [reflexivity|]. split; [reflexivity|].
        intros Hb. destruct (Hb eq_refl) as [body [=]]. }
  destruct Hcases as [->|(e & d & -> & -> & He)].
  - destruct (Eager.voice_input request_json file) as [arr|e].
    + destruct (shape arr !! 1%nat) as [n|]; [|repeat split; try intros ? [=]].
      destruct (n =? 22)%nat; [|repeat split; try intros ? [=]].
      destruct (voice_classify _ _ arr) as [[[label conf] pd]|e].
      * split; [intros r [= <-]; reflexivity|].
        split; [intros r' [= <-]; eauto | reflexivity].
      * destruct (is_HTTPException e); repeat split; try intros ? [=].
    + destruct (is_HTTPException e); repeat split; try intros ? [=].
  - cbn. split; [destruct (is_HTTPException e); intros ? [=]|].
    split; [intros ? [=]|]. intros Hb. rewrite (He Hb). reflexivity.
Qed.

Lemma voice_servers_agree_witness :
  fst (Lazy.predict_voice (H := Sample.libs) Sample.disk_ok f_zero
         (Ok (Sample.features_body 22)) None Lazy.initial) =
    Ok {| prediction := "parkinsons"; confidence := Sample.f_three_quarters;
          probability := Some (<["parkinsons" := Sample.f_three_quarters]>
                                 (<["healthy" := Sample.f_quarter]> ∅));
          inference_time_seconds := Some f_zero |}.
Proof.
  exact (proj1 (voice_servers_agree (H := Sample.libs) Sample.disk_ok f_zero
                  (Ok (Sample.features_body 22)) None
                  (Sample.const_voice 1 (Some [Sample.f_quarter; Sample.f_three_quarters]))
                  Lazy.initial _ consistent_initial eq_refl)
           {| prediction := "parkinsons"; confidence := Sample.f_three_quarters;
              probability := Some (<["parkinsons" := Sample.f_three_quarters]>
                                     (<["healthy" := Sample.f_quarter]> ∅));
              inference_time_seconds := None |} eq_refl).
Defined.

(** ** The registry over a sequence of requests *)

(** A state that differs from [st] by records of the routes only. *)
Lemma logged_fields (recs : list Lazy.log_record) (st : Lazy.State) :
  Forall (fun r => Lazy.is_load_record r = false) recs ->
  let st' := fold_right Lazy.logger st recs in
  Lazy.mri_model st' = Lazy.mri_model st /\
  Lazy.voice_model st' = Lazy.voice_model st /\
  Lazy._voice_has_proba st' = Lazy._voice_has_proba st /\
  Lazy.mri_loads st' = Lazy.mri_loads st /\
  Lazy.voice_loads st' = Lazy.voice_loads st /\
  Lazy.mri_load_attempts st' = Lazy.mri_load_attempts st /\
  Lazy.voice_load_attempts st' = Lazy.voice_load_attempts st.
Proof.
  induction 1 as [|r recs Hr _ IH]; cbn zeta; [repeat split|].
  cbn [fold_right]. cbn zeta in IH. destruct IH as (H1 & H2 & H3 & H4 & H5 & H6 & H7).
  unfold Lazy.mri_loads, Lazy.voice_loads, Lazy.mri_load_attempts,
    Lazy.voice_load_attempts in *.
  destruct r; try discriminate Hr; cbn; auto 10.
Qed.

Lemma load_mri_model_state (disk : Lazy.Artifacts) (st : Lazy.State) :
  let st' := snd (Lazy.load_mri_model disk st) in
  Lazy.voice_model st' = Lazy.voice_model st /\
  Lazy._voice_has_proba st' = Lazy._voice_has_proba st /\
  Lazy.voice_loads st' = Lazy.voice_loads st /\
  Lazy.voice_load_attempts st' = Lazy.voice_load_attempts st /\
  match Lazy.mri_model st with
  | Some m => st' = st
  | None =>
      Lazy.mri_loads st' = match Lazy.mri_model st' with
                           | Some _ => S (Lazy.mri_loads st)
                           | None => Lazy.mri_loads st
                           end
  end.
Proof.
  unfold Lazy.load_mri_model.
  destruct (Lazy.mri_model st) eqn:Hm; [cbn; auto|].
  destruct (Lazy.mri_path_exists disk); cbn;
    [destruct (Lazy.tf_load_model disk); cbn|]; rewrite ?Hm; repeat split.
Qed.

Lemma load_voice_model_state (disk : Lazy.Artifacts) (st : Lazy.State) :
  let st' := snd (Lazy.load_voice_model disk st) in
  Lazy.mri_model st' = Lazy.mri_model st /\
  Lazy.mri_loads st' = Lazy.mri_loads st /\
  Lazy.mri_load_attempts st' = Lazy.mri_load_attempts st /\
  match Lazy.voice_model st with
  | Some m => st' = st
  | None =>
      Lazy.voice_loads st' = match Lazy.voice_model st' with
                             | Some _ => S (Lazy.voice_loads st)
                             | None => Lazy.voice_loads st
                             end
  end.
Proof.
  unfold Lazy.load_voice_model.
  destruct (Lazy.voice_model st) eqn:Hm; [cbn; auto|].
  destruct (Lazy.voice_path_exists disk); cbn;
    [destruct (Lazy.joblib_load disk); cbn|]; rewrite ?Hm; repeat split.
Qed.

Section Registry.
Context `{External}.

Lemma predict_mri_state disk t file st :
  exists recs,
    Forall (fun r => Lazy.is_load_record r = false) recs /\
    snd (Lazy.predict_mri disk t file st) =
      fold_right Lazy.logger (snd (Lazy.load_mri_model disk st)) recs.
Proof.
  unfold Lazy.predict_mri.
  destruct (Lazy.load_mri_model disk st) as [[model|e] st1]; cbn [snd];
    [|exists []; split; [constructor|reflexivity]].
  destruct file as [f|]; [|exists []; split; [constructor|reflexivity]].
  destruct (match truthy_content_type f with
            | Some ct => negb (String.eqb (split_slash_0 ct) "image")
            | None => true
            end); [exists []; split; [constructor|reflexivity]|].
  match goal with
  | |- context [match ?b with Ok _ => _ | Raise _ => _ end] =>
      destruct b as [[label prob]|e]
  end; [|destruct (is_ValueError e)]; cbn [snd];
    eexists [_; _]; (split; [|reflexivity]);
    (constructor; [reflexivity|constructor; [reflexivity|constructor]]).
Qed.

Lemma predict_voice_state disk t request_json file st :
  exists recs,
    Forall (fun r => Lazy.is_load_record r = false) recs /\
    snd (Lazy.predict_voice disk t request_json file st) =
      fold_right Lazy.logger (snd (Lazy.load_voice_model disk st)) recs.
Proof.
  unfold Lazy.predict_voice.
  destruct (Lazy.load_voice_model disk st) as [[model|e] st1]; cbn [snd];
    [|exists []; split; [constructor|reflexivity]].
  assert (Hin : exists recs,
            Forall (fun r => Lazy.is_load_record r = false) recs /\
            snd (Lazy.voice_input request_json file
                   (Lazy.logger Lazy.info_processing_voice st1)) =
              fold_right Lazy.logger st1 recs).
  { unfold Lazy.voice_input. destruct file; [|destruct request_json]; cbn [snd].
    - eexists [_; _]. split; [|reflexivity].
      constructor; [reflexivity|constructor; [reflexivity|constructor]].
    - eexists [_]. split; [|reflexivity]. constructor; [reflexivity|constructor].
    - eexists [_]. split; [|reflexivity]. constructor; [reflexivity|constructor]. }
  destruct (Lazy.voice_input _ _ _) as [arr st2]. cbn [snd] in Hin.
  destruct Hin as (recs & Hrecs & ->).
  match goal with
  | |- context [match ?b with Ok _ => _ | Raise _ => _ end] =>
      destruct b as [[[label conf] pd]|e]
  end; [|destruct (is_HTTPException e)]; cbn [snd].
  - eexists (_ :: recs). split; [|reflexivity]. constructor; [reflexivity|exact Hrecs].
  - exists recs. auto.
  - eexists (_ :: recs). split; [|reflexivity]. constructor; [reflexivity|exact Hrecs].
Qed.

Lemma serve_invariant disk t rq st :
  registry_invariant st -> registry_invariant (serve disk t rq st).
Proof.
  intros (Hc & Hm & Hv). destruct rq as [| |file|request_json file]; cbn [serve].
  - repeat split; assumption.
  - repeat split; assumption.
  - split; [apply consistent_predict_mri, Hc|].
    destruct (predict_mri_state disk t file st) as (recs & Hrecs & ->).
    destruct (logged_fields recs (snd (Lazy.load_mri_model disk st)) Hrecs) as (H1 & H2 & _ & H4 & H5 & _).
    rewrite H1, H2, H4, H5.
    destruct (load_mri_model_state disk st) as (L1 & _ & L3 & _ & L5).
    rewrite L1, L3. split; [|exact Hv].
    destruct (Lazy.mri_model st) eqn:Hst; [rewrite L5, Hst; exact Hm|].
    rewrite L5, Hm. destruct (Lazy.mri_model _); reflexivity.
  - split; [apply consistent_predict_voice, Hc|].
    destruct (predict_voice_state disk t request_json file st) as (recs & Hrecs & ->).
    destruct (logged_fields recs (snd (Lazy.load_voice_model disk st)) Hrecs) as (H1 & H2 & _ & H4 & H5 & _).
    rewrite H1, H2, H4, H5.
    destruct (load_voice_model_state disk st) as (L1 & L2 & _ & L4).
    rewrite L1, L2. split; [exact Hm|].
    destruct (Lazy.voice_model st) eqn:Hst; [rewrite L4, Hst; exact Hv|].
    rewrite L4, Hv. destruct (Lazy.voice_model _); reflexivity.
Qed.

Lemma serve_keeps_models disk t rq st :
  (forall m, Lazy.mri_model st = Some m ->
     Lazy.mri_model (serve disk t rq st) = Some m /\
     Lazy.mri_load_attempts (serve disk t rq st) = Lazy.mri_load_attempts st) /\
  (forall m, Lazy.voice_model st = Some m ->
     Lazy.voice_model (serve disk t rq st) = Some m /\
     Lazy._voice_has_proba (serve disk t rq st) = Lazy._voice_has_proba st /\
     Lazy.voice_load_attempts (serve disk t rq st) = Lazy.voice_load_attempts st).
Proof.
  destruct rq as [| |file|request_json file]; cbn [serve]; try (split; intros; auto).
  - destruct (predict_mri_state disk t file st) as (recs & Hrecs & ->).
    destruct (logged_fields recs (snd (Lazy.load_mri_model disk st)) Hrecs) as (H1 & _ & _ & _ & _ & H6 & _).
    rewrite H1, H6.
    destruct (load_mri_model_state disk st) as (_ & _ & _ & _ & L5).
    rewrite H0 in L5. rewrite L5. auto.
  - destruct (predict_mri_state disk t file st) as (recs & Hrecs & ->).
    destruct (logged_fields recs (snd (Lazy.load_mri_model disk st)) Hrecs) as (_ & H2 & H3 & _ & _ & _ & H7).
    rewrite H2, H3, H7.
    destruct (load_mri_model_state disk st) as (L1 & L2 & _ & L4 & _).
    rewrite L1, L2, L4. auto.
  - destruct (predict_voice_state disk t request_json file st) as (recs & Hrecs & ->).
    destruct (logged_fields recs (snd (Lazy.load_voice_model disk st)) Hrecs) as (H1 & _ & _ & _ & _ & H6 & _).
    rewrite H1, H6.
    destruct (load_voice_model_state disk st) as (L1 & _ & L3 & _).
    rewrite L1, L3. auto.
  - destruct (predict_voice_state disk t request_json file st) as (recs & Hrecs & ->).
    destruct (logged_fields recs (snd (Lazy.load_voice_model disk st)) Hrecs) as (_ & H2 & H3 & _ & _ & _ & H7).
    rewrite H2, H3, H7.
    destruct (load_voice_model_state disk st) as (_ & _ & _ & L4).
    rewrite H0 in L4. rewrite L4. auto.
Qed.
End Registry.

(** In every state the lazy-loading server reaches from its start, through
    any requests and whatever is on disk at each of them, the probability
    flag is the one of the cached voice model, and a model of either kind is
    cached exactly when one load of it has succeeded: no model is ever
    loaded successfully twice. *)
Theorem registry_invariant_reachable `{External}
    (rqs : list (Lazy.Artifacts * float * request)) :
  registry_invariant (run rqs Lazy.initial) /\
  (Lazy.mri_loads (run rqs Lazy.initial) <= 1)%nat /\
  (Lazy.voice_loads (run rqs Lazy.initial) <= 1)%nat.
Proof.
  assert (Hinv : forall st, registry_invariant st -> registry_invariant (run rqs st)).
  { induction rqs as [|[[disk t] rq] rqs IH]; intros st Hst; [exact Hst|].
    cbn. apply IH, serve_invariant, Hst. }
  assert (H0 : registry_invariant Lazy.initial).
  { split; [exact consistent_initial|]. split; reflexivity. }
  pose proof (Hinv _ H0) as (Hc & Hm & Hv). split; [repeat split; assumption|].
  rewrite Hm, Hv.
  split; [destruct (Lazy.mri_model _) | destruct (Lazy.voice_model _)]; lia.
Qed.

(** A cached model stays: once a model of a kind is cached, every later
    request, of any route and whatever is on disk by then, leaves that same
    handle cached and starts no further load of that kind. *)
Theorem cache_is_permanent `{External} (rqs : list (Lazy.Artifacts * float * request))
    (st : Lazy.State) :
  (forall m, Lazy.mri_model st = Some m ->
     Lazy.mri_model (run rqs st) = Some m /\
     Lazy.mri_load_attempts (run rqs st) = Lazy.mri_load_attempts st) /\
  (forall m, Lazy.voice_model st = Some m ->
     Lazy.voice_model (run rqs st) = Some m /\
     Lazy._voice_has_proba (run rqs st) = Lazy._voice_has_proba st /\
     Lazy.voice_load_attempts (run rqs st) = Lazy.voice_load_attempts st).
Proof.
  revert st. induction rqs as [|[[disk t] rq] rqs IH]; intros st; [cbn; auto|].
  cbn [run]. destruct (serve_keeps_models disk t rq st) as [Hm Hv].
  destruct (IH (serve disk t rq st)) as [IHm IHv]. split.
  - intros m Hst. destruct (Hm m Hst) as [H1 H2].
    destruct (IHm m H1) as [H3 H4]. split; congruence.
  - intros m Hst. destruct (Hv m Hst) as (H1 & H2 & H3).
    destruct (IHv m H1) as (H4 & H5 & H6). repeat split; congruence.
Qed.

Lemma cache_is_permanent_witness :
  Lazy.mri_model
    (run (H := Sample.libs)
         [(Sample.disk_empty, f_zero, POST_predict_mri (Some Sample.png));
          (Sample.disk_corrupt, f_zero, GET_health);
          (Sample.disk_empty, f_zero, POST_predict_voice (Ok JNull) None)]
         (snd (Lazy.load_mri_model Sample.disk_ok Lazy.initial)))
    = Some (Sample.const_mri Sample.f_three_quarters).
Proof.
  exact (proj1 (proj1 (cache_is_permanent (H := Sample.libs)
           [(Sample.disk_empty, f_zero, POST_predict_mri (Some Sample.png));
            (Sample.disk_corrupt, f_zero, GET_health);
            (Sample.disk_empty, f_zero, POST_predict_voice (Ok JNull) None)]
           (snd (Lazy.load_mri_model Sample.disk_ok Lazy.initial)))
         (Sample.const_mri Sample.f_three_quarters) eq_refl)).
Defined.

(** Each prediction route of the lazy-loading server touches the model of
    its own kind only: the MRI route leaves the voice model, its flag and
    the count of voice loads as they are, and the voice route the MRI model
    and the count of MRI loads.  [GET /] and [GET /health] leave the whole
    state as it is, so the health check starts no load, and its answer is
    the same in every state and whatever the artifacts deserialize to. *)
Theorem routes_touch_own_model_only `{External} (disk : Lazy.Artifacts) (t : float)
    (st : Lazy.State) :
  (forall file,
     let st' := snd (Lazy.predict_mri disk t file st) in
     Lazy.voice_model st' = Lazy.voice_model st /\
     Lazy._voice_has_proba st' = Lazy._voice_has_proba st /\
     Lazy.voice_load_attempts st' = Lazy.voice_load_attempts st) /\
  (forall request_json file,
     let st' := snd (Lazy.predict_voice disk t request_json file st) in
     Lazy.mri_model st' = Lazy.mri_model st /\
     Lazy.mri_load_attempts st' = Lazy.mri_load_attempts st) /\
  snd (Lazy.root st) = st /\
  snd (Lazy.health_check disk st) = st /\
  (forall disk' st',
     Lazy.mri_path_exists disk' = Lazy.mri_path_exists disk ->
     Lazy.voice_path_exists disk' = Lazy.voice_path_exists disk ->
     Lazy.MRI_MODEL_PATH disk' = Lazy.MRI_MODEL_PATH disk ->
     Lazy.VOICE_MODEL_PATH disk' = Lazy.VOICE_MODEL_PATH disk ->
     fst (Lazy.health_check disk' st') = fst (Lazy.health_check disk st)).
Proof.
  split; [|split; [|split; [|split]]]; try reflexivity.
  - intros file. cbn zeta.
    destruct (predict_mri_state disk t file st) as (recs & Hrecs & ->).
    destruct (logged_fields recs (snd (Lazy.load_mri_model disk st)) Hrecs)
      as (_ & H2 & H3 & _ & _ & _ & H7).
    destruct (load_mri_model_state disk st) as (L1 & L2 & _ & L4 & _).
    rewrite H2, H3, H7, L1, L2, L4. auto.
  - intros request_json file. cbn zeta.
    destruct (predict_voice_state disk t request_json file st) as (recs & Hrecs & ->).
    destruct (logged_fields recs (snd (Lazy.load_voice_model disk st)) Hrecs)
      as (H1 & _ & _ & _ & _ & H6 & _).
    destruct (load_voice_model_state disk st) as (L1 & _ & L3 & _).
    rewrite H1, H6, L1, L3. auto.
  - intros disk' st' E1 E2 E3 E4. unfold Lazy.health_check. cbn.
    rewrite E1, E2, E3, E4. reflexivity.
Qed.

Lemma routes_touch_own_model_only_witness :
  fst (Lazy.health_check Sample.disk_corrupt
         (snd (Lazy.load_mri_model Sample.disk_ok Lazy.initial)))
    = fst (Lazy.health_check Sample.disk_ok Lazy.initial).
Proof.
  exact (proj2 (proj2 (proj2 (proj2
           (routes_touch_own_model_only (H := Sample.libs) Sample.disk_ok f_zero
              Lazy.initial))))
           Sample.disk_corrupt _ eq_refl eq_refl eq_refl eq_refl).
Defined.

(** ** The voice route loads first, too *)

(** On the lazy-loading server every request to the voice route runs the
    model load before it looks at its input: a load that fails ends the
    request with the exception of the load, and a first request leaves the
    model cached, with the flag of that model, also when it is answered with
    an error. *)
Theorem lazy_voice_loads_before_input `{External} (disk : Lazy.Artifacts) (t : float)
    (request_json : result json) (file : option UploadFile) (st : Lazy.State) :
  (forall e st', Lazy.load_voice_model disk st = (Raise e, st') ->
     Lazy.predict_voice disk t request_json file st = (Raise e, st')) /\
  (Lazy.voice_model st = None -> Lazy.voice_path_exists disk = false ->
     fst (Lazy.predict_voice disk t request_json file st) =
       Raise (FileNotFoundError
                ("Voice model not found at " +:+ Lazy.VOICE_MODEL_PATH disk))) /\
  (forall m, Lazy.voice_model st = None -> Lazy.voice_path_exists disk = true ->
     Lazy.joblib_load disk = Ok m ->
     let st' := snd (Lazy.predict_voice disk t request_json file st) in
     Lazy.voice_model st' = Some m /\
     Lazy._voice_has_proba st' = hasattr_predict_proba m).
Proof.
  split; [|split].
  - intros e st' Hload. unfold Lazy.predict_voice. rewrite Hload. reflexivity.
  - intros Hm Hex. unfold Lazy.predict_voice, Lazy.load_voice_model.
    rewrite Hm, Hex. reflexivity.
  - intros m Hm Hex Hl. cbn zeta.
    destruct (predict_voice_state disk t request_json file st) as (recs & Hrecs & ->).
    destruct (logged_fields recs (snd (Lazy.load_voice_model disk st)) Hrecs)
      as (_ & H2 & H3 & _).
    rewrite H2, H3. unfold Lazy.load_voice_model. rewrite Hm, Hex, Hl. split; reflexivity.
Qed.

Lemma lazy_voice_loads_before_input_witness :
  Lazy.voice_model
    (snd (Lazy.predict_voice (H := Sample.libs) Sample.disk_ok f_zero
            (Raise (ValueError "Expecting value")) None Lazy.initial))
    = Some (Sample.const_voice 1 (Some [Sample.f_quarter; Sample.f_three_quarters])).
Proof.
  exact (proj1 (proj2 (proj2 (lazy_voice_loads_before_input (H := Sample.libs)
                  Sample.disk_ok f_zero (Raise (ValueError "Expecting value")) None
                  Lazy.initial))
           _ eq_refl eq_refl eq_refl)).
Defined.

(** ** The same request twice *)

Section Repeat.
Context `{External}.

Lemma load_mri_ok_cached disk st model st1 :
  Lazy.load_mri_model disk st = (Ok model, st1) -> Lazy.mri_model st1 = Some model.
Proof.
  unfold Lazy.load_mri_model. destruct (Lazy.mri_model st) as [m|] eqn:Hm.
  - intros [= <- <-]. exact Hm.
  - destruct (Lazy.mri_path_exists disk); cbn; [|discriminate].
    destruct (Lazy.tf_load_model disk); [|discriminate]. intros [= <- <-]. reflexivity.
Qed.

Lemma load_voice_ok_cached disk st model st1 :
  Lazy.load_voice_model disk st = (Ok model, st1) -> Lazy.voice_model st1 = Some model.
Proof.
  unfold Lazy.load_voice_model. destruct (Lazy.voice_model st) as [m|] eqn:Hm.
  - intros [= <- <-]. exact Hm.
  - destruct (Lazy.voice_path_exists disk); cbn; [|discriminate].
    destruct (Lazy.joblib_load disk); [|discriminate]. intros [= <- <-]. reflexivity.
Qed.

(** With a cached model the answer of the MRI route is a matter of the
    model and the request alone. *)
Lemma lazy_predict_mri_cached disk disk' t file st st' model :
  Lazy.mri_model st = Some model -> Lazy.mri_model st' = Some model ->
  fst (Lazy.predict_mri disk t file st) = fst (Lazy.predict_mri disk' t file st').
Proof.
  intros Hm Hm'. unfold Lazy.predict_mri, Lazy.load_mri_model. rewrite Hm, Hm'.
  destruct file as [f|]; [|reflexivity].
  destruct (match truthy_content_type f with
            | Some ct => negb (String.eqb (split_slash_0 ct) "image")
            | None => true
            end); [reflexivity|].
  match goal with
  | |- context [match ?b with Ok _ => _ | Raise _ => _ end] =>
      destruct b as [[label prob]|e]
  end; [reflexivity|]. destruct (is_ValueError e); reflexivity.
Qed.

Lemma lazy_voice_input_fst request_json file st st' :
  fst (Lazy.voice_input request_json file st)
    = fst (Lazy.voice_input request_json file st').
Proof.
  unfold Lazy.voice_input. destruct file; [|destruct request_json]; reflexivity.
Qed.

Lemma lazy_predict_voice_cached disk disk' t request_json file st st' model :
  Lazy.voice_model st = Some model -> Lazy.voice_model st' = Some model ->
  Lazy._voice_has_proba st = Lazy._voice_has_proba st' ->
  fst (Lazy.predict_voice disk t request_json file st)
    = fst (Lazy.predict_voice disk' t request_json file st').
Proof.
  intros Hm Hm' Hflag.
  assert (Hl : Lazy.load_voice_model disk st = (Ok model, st)).
  { unfold Lazy.load_voice_model. rewrite Hm. reflexivity. }
  assert (Hl' : Lazy.load_voice_model disk' st' = (Ok model, st')).
  { unfold Lazy.load_voice_model. rewrite Hm'. reflexivity. }
  rewrite (lazy_predict_voice_after_input disk t request_json file model st st Hl).
  rewrite (lazy_predict_voice_after_input disk' t request_json file model st' st' Hl').
  rewrite Hflag.
  rewrite (lazy_voice_input_fst request_json file _
             (Lazy.logger Lazy.info_processing_voice st')).
  reflexivity.
Qed.
End Repeat.

(** A request that the lazy-loading server has answered with a prediction
    gets the same prediction when it is sent again right away (measured time
    apart), whatever has happened to the artifacts on disk in between. *)
Theorem repeated_request_same_response `{External} (disk disk' : Lazy.Artifacts)
    (t : float) (st : Lazy.State) :
  (forall file r,
     fst (Lazy.predict_mri disk t file st) = Ok r ->
     fst (Lazy.predict_mri disk' t file (snd (Lazy.predict_mri disk t file st))) = Ok r) /\
  (forall request_json file r,
     fst (Lazy.predict_voice disk t request_json file st) = Ok r ->
     fst (Lazy.predict_voice disk' t request_json file
            (snd (Lazy.predict_voice disk t request_json file st))) = Ok r).
Proof.
  split.
  - intros file r Hr.
    destruct (Lazy.load_mri_model disk st) as [[model|e] st1] eqn:Hload;
      [|unfold Lazy.predict_mri in Hr; rewrite Hload in Hr; discriminate].
    pose proof (load_mri_ok_cached disk st model st1 Hload) as Hm1.
    assert (Hm2 : Lazy.mri_model (snd (Lazy.predict_mri disk t file st)) = Some model).
    { destruct (predict_mri_state disk t file st) as (recs & Hrecs & ->).
      destruct (logged_fields recs (snd (Lazy.load_mri_model disk st)) Hrecs) as (H1 & _).
      rewrite H1, Hload. exact Hm1. }
    rewrite (lazy_predict_mri_cached disk' disk t file _ st1 model Hm2 Hm1).
    rewrite <- Hr. unfold Lazy.predict_mri. rewrite Hload.
    unfold Lazy.load_mri_model. rewrite Hm1. reflexivity.
  - intros request_json file r Hr.
    destruct (Lazy.load_voice_model disk st) as [[model|e] st1] eqn:Hload;
      [|unfold Lazy.predict_voice in Hr; rewrite Hload in Hr; discriminate].
    pose proof (load_voice_ok_cached disk st model st1 Hload) as Hm1.
    assert (Hst2 : Lazy.voice_model (snd (Lazy.predict_voice disk t request_json file st))
                     = Some model /\
                   Lazy._voice_has_proba
                     (snd (Lazy.predict_voice disk t request_json file st))
                     = Lazy._voice_has_proba st1).
    { destruct (predict_voice_state disk t request_json file st) as (recs & Hrecs & ->).
      destruct (logged_fields recs (snd (Lazy.load_voice_model disk st)) Hrecs)
        as (_ & H2 & H3 & _).
      rewrite H2, H3, Hload. auto. }
    destruct Hst2 as [Hm2 Hf2].
    rewrite (lazy_predict_voice_cached disk' disk t request_json file _ st1 model
               Hm2 Hm1 Hf2).
    rewrite <- Hr. unfold Lazy.predict_voice. rewrite Hload.
    unfold Lazy.load_voice_model. rewrite Hm1. reflexivity.
Qed.

Lemma repeated_request_same_response_witness :
  fst (Lazy.predict_mri (H := Sample.libs) Sample.disk_empty f_zero (Some Sample.png)
         (snd (Lazy.predict_mri (H := Sample.libs) Sample.disk_ok f_zero
                 (Some Sample.png) Lazy.initial))) =
    Ok {| prediction := "parkinsons"; confidence := Sample.f_three_quarters;
          probability := None; inference_time_seconds := Some f_zero |}.
Proof.
  exact (proj1 (repeated_request_same_response (H := Sample.libs) Sample.disk_ok
                  Sample.disk_empty f_zero Lazy.initial)
           (Some Sample.png) _ eq_refl).
Defined.

(** ** Exactly 22 values in JSON mode *)

(** A voice prediction from a JSON body succeeds only when the body holds
    exactly 22 values, counting through nested lists: the array handed to
    the model is a well-formed (1, 22) float32 array, so nothing is cut off
    or filled in. *)
Theorem json_prediction_has_22_values `{External} (voice_model : VoiceModel)
    (body : json) (r : response) :
  Eager.predict_voice voice_model (Ok body) None = Ok r ->
  exists arr pred,
    Eager.voice_input (Ok body) None = Ok arr /\
    dtype arr = float32 /\ shape arr = [1%nat; 22%nat] /\
    length (data arr) = 22%nat /\
    sk_predict voice_model arr = Ok pred.
Proof.
  intros Hr.
  apply eager_predict_voice_inv in Hr as (arr & label & conf & pd & Harr & H22 & Hc & ->).
  apply voice_classify_inv in Hc as (pred & Hpred & _).
  exists arr, pred. split; [exact Harr|].
  assert (Hlist : exists features, preprocess_voice_from_list features = Ok arr).
  { unfold Eager.voice_input in Harr. cbn in Harr.
    destruct (features_in body) as [[|]|e]; cbn in Harr; try discriminate.
    - destruct (getitem_features body) as [features|e]; cbn in Harr; [eauto|discriminate].
    - destruct (isinstance_list body); [eauto|discriminate]. }
  destruct Hlist as (features & Hpre). unfold preprocess_voice_from_list in Hpre.
  destruct (np_array_f32 features) as [a|e] eqn:Hnp; cbn in Hpre; [|discriminate].
  injection Hpre as <-.
  destruct (np_array_f32_well_formed features a Hnp) as [Hd Hwf].
  unfold well_formed in Hwf. unfold reshape_1_m1 in H22, Hpred |- *.
  cbn [shape dtype data] in H22 |- *. cbn in H22. injection H22 as H22.
  rewrite Hwf, H22. repeat split; [exact Hd | rewrite <- H22; exact Hpred].
Qed.

Lemma json_prediction_has_22_values_witness :
  exists arr pred,
    Eager.voice_input (H := Sample.libs) (Ok (Sample.features_body 22)) None = Ok arr /\
    dtype arr = float32 /\ shape arr = [1%nat; 22%nat] /\
    length (data arr) = 22%nat /\
    sk_predict (Sample.const_voice 2 None) arr = Ok pred.
Proof.
  exact (json_prediction_has_22_values (H := Sample.libs) (Sample.const_voice 2 None)
           (Sample.features_body 22)
           {| prediction := "2"; confidence := f_one;
              probability := Some (<["2" := f_one]> ∅);
              inference_time_seconds := None |} eq_refl).
Defined.

(** ** Every MRI response *)

Lemma mri_classify_spec (model : MriModel) (x : ndarray float) label prob
    (t : option float) :
  mri_classify model x = Ok (label, prob) ->
  mri_response_spec {| prediction := label; confidence := prob;
                       probability := None; inference_time_seconds := t |}.
Proof.
  unfold mri_classify. destruct (keras_predict model x) as [raw|e]; [|discriminate].
  cbn. intros [= <- <-]. unfold mri_response_spec. cbn. split; [|split; [|reflexivity]].
  - destruct (py_gt (np_clip raw f_zero f_one) f_half); auto.
  - destruct (isnan raw) eqn:Hnan.
    + left. destruct raw; try discriminate. reflexivity.
    + right. apply np_clip_unit_interval, Hnan.
Qed.

(** Every prediction that the MRI route of either server returns carries
    the label "parkinsons" or "normal", the former exactly when its
    confidence is above 0.5, a confidence that lies in [0,1] unless it is
    NaN, and no probability mapping; and it was returned for an upload with
    an image content type. *)
Theorem mri_response_invariant `{External} (file : option UploadFile) (r : response) :
  (forall model, Eager.predict_mri model file = Ok r ->
     mri_response_spec r /\ is_image_upload file = true /\
     inference_time_seconds r = None) /\
  (forall disk t st, fst (Lazy.predict_mri disk t file st) = Ok r ->
     mri_response_spec r /\ is_image_upload file = true /\
     inference_time_seconds r = Some t).
Proof.
  split.
  - intros model. unfold Eager.predict_mri, is_image_upload.
    destruct file as [f|]; [|discriminate].
    destruct (truthy_content_type f) as [ct|]; [|discriminate].
    destruct (String.eqb (split_slash_0 ct) "image"); cbn [negb]; [|discriminate].
    unfold try_except.
    destruct (preprocess_mri_from_bytes (contents f)) as [x|e]; cbn; [|discriminate].
    destruct (mri_classify model x) as [[label prob]|e] eqn:Hc; cbn; [|discriminate].
    intros [= <-]. split; [eapply mri_classify_spec, Hc|]. split; reflexivity.
  - intros disk t st. unfold Lazy.predict_mri, is_image_upload.
    destruct (Lazy.load_mri_model disk st) as [[model|e] st1]; [|discriminate].
    destruct file as [f|]; [|discriminate].
    destruct (truthy_content_type f) as [ct|]; [|discriminate].
    destruct (String.eqb (split_slash_0 ct) "image"); cbn [negb]; [|discriminate].
    destruct (preprocess_mri_from_bytes (contents f)) as [x|e]; cbn;
      [|destruct (is_ValueError e); discriminate].
    destruct (mri_classify model x) as [[label prob]|e] eqn:Hc; cbn;
      [|destruct (is_ValueError e); discriminate].
    intros [= <-]. split; [eapply mri_classify_spec, Hc|]. split; reflexivity.
Qed.

Lemma mri_response_invariant_witness :
  mri_response_spec
    {| prediction := "normal"; confidence := S754_nan;
       probability := None; inference_time_seconds := None |}.
Proof.
  exact (proj1 (proj1 (mri_response_invariant (H := Sample.libs) (Some Sample.png)
                         {| prediction := "normal"; confidence := S754_nan;
                            probability := None; inference_time_seconds := None |})
                  (Sample.const_mri S754_nan) eq_refl)).
Defined.
